(** * Metrics ingestion and polling of the exporter dashboard

    A shallow embedding of the script block of the dashboard page
    (src/unnamed/part_000): the parsing of a Prometheus-style exposition
    blob, the derived statistics (per-core usage, aggregate usage, network
    speed, memory and disk usage), the failure handling of [fetchMetrics]
    and the retry and polling functions around it.

    Modelling conventions.
    - A JavaScript number is a [number]: an exact rational, one of the two
      infinities, or NaN.  Rounding to binary64, overflow to an infinity
      and the sign of zero are abstracted; every concrete value used below
      is exactly representable in binary64.
    - A JavaScript string is a [string] of ASCII characters.
    - The module-level [let] variables form the record [Globals], grouped as
      the source groups them with its section comments.
    - The arrays [cpuIdleTimes], [cpuTotalTimes], [lastCpuIdleTimes] and
      [lastCpuTotalTimes] are only ever written (nothing derives a displayed
      value from them); their contents are not modelled, the [RangeError]
      that [new Array(value)] raises for a length above 2^32 - 1 is.  What
      [fill] can allocate below that length depends on the engine and is
      not modelled: statements about a pass that completes ask for small
      counts of logical processors where that matters.
    - A request settles in the turn that makes it: [startPolling] tests
      [pollingInterval], makes its request and sets the interval in one
      step.  Statements about polling are about pages on which no call of
      [startPolling] and no request is pending.
    - Chart objects, [console] output and the device list persistence have
      no influence on the variables modelled and are left out. *)

From Stdlib Require Import ZArith QArith Lqa Lia List Bool Ascii String Sorted.
From Stdlib Require Import DecimalString Permutation.
From Stdlib Require DecimalZ DecimalPos.
Import ListNotations.
Close Scope Q_scope.
Open Scope Z_scope.
Open Scope string_scope.

(** ** JavaScript numbers *)

Inductive number : Type :=
  | NaN : number
  | Inf (negative : bool) : number
  | Fin (q : Q) : number.

Definition Qneg (q : Q) : bool := match Qnum q with Zneg _ => true | _ => false end.
Definition Qzero (q : Q) : bool := match Qnum q with Z0 => true | _ => false end.

Definition isNaN (x : number) : bool :=
  match x with NaN => true | _ => false end.

Definition nopp (x : number) : number :=
  match x with
  | NaN => NaN
  | Inf s => Inf (negb s)
  | Fin q => Fin (Qopp q)
  end.

Definition nadd (x y : number) : number :=
  match x, y with
  | NaN, _ | _, NaN => NaN
  | Inf s, Inf s' => if Bool.eqb s s' then Inf s else NaN
  | Inf s, Fin _ | Fin _, Inf s => Inf s
  | Fin a, Fin b => Fin (a + b)%Q
  end.

Definition nsub (x y : number) : number := nadd x (nopp y).

Definition nmul (x y : number) : number :=
  match x, y with
  | NaN, _ | _, NaN => NaN
  | Inf s, Inf s' => Inf (xorb s s')
  | Inf s, Fin q | Fin q, Inf s => if Qzero q then NaN else Inf (xorb s (Qneg q))
  | Fin a, Fin b => Fin (a * b)%Q
  end.

Definition ndiv (x y : number) : number :=
  match x, y with
  | NaN, _ | _, NaN => NaN
  | Inf _, Inf _ => NaN
  | Inf s, Fin q => Inf (xorb s (Qneg q))
  | Fin _, Inf _ => Fin 0%Q
  | Fin a, Fin b =>
      if Qzero b then (if Qzero a then NaN else Inf (Qneg a))
      else Fin (a / b)%Q
  end.

(** [x > y]; false as soon as one side is NaN. *)
Definition ngt (x y : number) : bool :=
  match x, y with
  | NaN, _ | _, NaN => false
  | Inf s, Inf s' => negb s && s'
  | Inf s, Fin _ => negb s
  | Fin _, Inf s => s
  | Fin a, Fin b => negb (Qle_bool a b)
  end.

(** [Math.max(x, y)]. *)
Definition Math_max (x y : number) : number :=
  match x, y with
  | NaN, _ | _, NaN => NaN
  | _, _ => if ngt y x then y else x
  end.

Definition ofZ (z : Z) : number := Fin (inject_Z z).

(** Equality of numbers up to the representation of the fraction. *)
Definition num_eq (x y : number) : Prop :=
  match x, y with
  | NaN, NaN => True
  | Inf s, Inf s' => s = s'
  | Fin a, Fin b => (a == b)%Q
  | _, _ => False
  end.

Declare Scope js_scope.
Delimit Scope js_scope with js.
Infix "+" := nadd : js_scope.
Infix "-" := nsub : js_scope.
Infix "*" := nmul : js_scope.
Infix "/" := ndiv : js_scope.
Infix ">" := ngt : js_scope.
Infix "==" := num_eq : js_scope.

(** ** JavaScript strings *)

Definition dq : string := String (ascii_of_nat 34) "".
Definition nl : string := String (ascii_of_nat 10) "".

(** [s.includes(sub)] *)
Fixpoint includes (sub s : string) : bool :=
  prefix sub s ||
  match s with
  | EmptyString => false
  | String _ s' => includes sub s'
  end.

(** [s.split(c)] for a one-character separator: never empty. *)
Fixpoint split (c : ascii) (s : string) : list string :=
  match s with
  | EmptyString => [""]
  | String a s' =>
      if Ascii.eqb a c then "" :: split c s'
      else match split c s' with
           | [] => [String a ""]
           | w :: ws => String a w :: ws
           end
  end.

(** [arr.pop()]: the last element, [None] for [undefined]. *)
Fixpoint pop (l : list string) : option string :=
  match l with
  | [] => None
  | [x] => Some x
  | _ :: l' => pop l'
  end.

(** [v || d] on a possibly undefined string: the empty string is falsy. *)
Definition or_default (v : option string) (d : string) : string :=
  match v with
  | Some EmptyString | None => d
  | Some s => s
  end.

Fixpoint span (p : ascii -> bool) (s : string) : string * string :=
  match s with
  | EmptyString => ("", "")
  | String a s' =>
      if p a then let (u, v) := span p s' in (String a u, v)
      else ("", s)
  end.

Fixpoint drop_prefix (p s : string) : option string :=
  match p, s with
  | EmptyString, _ => Some s
  | String a p', String b s' => if Ascii.eqb a b then drop_prefix p' s' else None
  | String _ _, EmptyString => None
  end.

Definition is_space (a : ascii) : bool :=
  let n := nat_of_ascii a in
  (Nat.eqb n 32 || (Nat.leb 9 n && Nat.leb n 13))%bool.

Definition is_digit (a : ascii) : bool :=
  let n := nat_of_ascii a in (Nat.leb 48 n && Nat.leb n 57)%bool.

(** Value of a hexadecimal digit, [None] when the character is none. *)
Definition hex_of (a : ascii) : option Z :=
  let n := nat_of_ascii a in
  if (Nat.leb 48 n && Nat.leb n 57)%bool then Some (Z.of_nat n - 48)
  else if (Nat.leb 97 n && Nat.leb n 102)%bool then Some (Z.of_nat n - 87)
  else if (Nat.leb 65 n && Nat.leb n 70)%bool then Some (Z.of_nat n - 55)
  else None.

Definition digit_in (radix : Z) (a : ascii) : bool :=
  match hex_of a with
  | Some d => Z.ltb d radix
  | None => false
  end.

(** Value of a run of digits in a radix, most significant first. *)
Fixpoint digits_val (radix acc : Z) (s : string) : Z :=
  match s with
  | EmptyString => acc
  | String a s' =>
      digits_val radix (radix * acc + match hex_of a with Some d => d | None => 0 end) s'
  end.

Definition trim_start (s : string) : string := snd (span is_space s).

Fixpoint rev_string (s acc : string) : string :=
  match s with
  | EmptyString => acc
  | String a s' => rev_string s' (String a acc)
  end.

Definition trim (s : string) : string :=
  rev_string (trim_start (rev_string (trim_start s) "")) "".

(** ** Numeric literals: [parseFloat], [parseInt], [Number] *)

(** The number written by the decimal digits [m] scaled by [10^e]. *)
Definition decimal_value (m : string) (e : Z) : Q :=
  let v := digits_val 10 0 m in
  if Z.leb 0 e then inject_Z (v * 10 ^ e)
  else Qmake v (Z.to_pos (10 ^ (- e))).

Definition is_e (a : ascii) : bool :=
  let n := nat_of_ascii a in (Nat.eqb n 101 || Nat.eqb n 69)%bool.

Definition scan_sign (s : string) : bool * string :=
  match s with
  | String a r =>
      if Nat.eqb (nat_of_ascii a) 45 then (true, r)
      else if Nat.eqb (nat_of_ascii a) 43 then (false, r)
      else (false, s)
  | EmptyString => (false, s)
  end.

(** An exponent part [e], [e+] or [e-] followed by digits, when present. *)
Definition scan_exponent (s : string) : Z * string :=
  match s with
  | String a r =>
      if is_e a then
        let (neg, r1) := scan_sign r in
        let (ds, rest) := span is_digit r1 in
        match ds with
        | EmptyString => (0, s)
        | _ => ((if neg then - digits_val 10 0 ds else digits_val 10 0 ds), rest)
        end
      else (0, s)
  | EmptyString => (0, s)
  end.

(** The longest unsigned decimal literal at the head of [s]. *)
Definition scan_unsigned (s : string) : option (Q * string) :=
  let (ip, s1) := span is_digit s in
  let (fp, s2) :=
    match s1 with
    | String a r => if Nat.eqb (nat_of_ascii a) 46 then span is_digit r else ("", s1)
    | EmptyString => ("", s1)
    end in
  match ip, fp with
  | EmptyString, EmptyString => None
  | _, _ =>
      let (e, s3) := scan_exponent s2 in
      Some (decimal_value (ip ++ fp) (e - Z.of_nat (String.length fp)), s3)
  end.

(** The longest signed decimal literal (or [Infinity]) at the head of [s]. *)
Definition scan_decimal (s : string) : option (number * string) :=
  let (neg, r) := scan_sign s in
  match drop_prefix "Infinity" r with
  | Some rest => Some (Inf neg, rest)
  | None =>
      match scan_unsigned r with
      | Some (q, rest) => Some (Fin (if neg then Qopp q else q), rest)
      | None => None
      end
  end.

Definition parseFloat (s : string) : number :=
  match scan_decimal (trim_start s) with
  | Some (v, _) => v
  | None => NaN
  end.

Definition is_x (a : ascii) : bool :=
  let n := nat_of_ascii a in (Nat.eqb n 120 || Nat.eqb n 88)%bool.

(** [parseInt(s)] with no radix argument. *)
Definition parseInt (s : string) : number :=
  let (neg, r) := scan_sign (trim_start s) in
  let (radix, r1) :=
    match r with
    | String z (String x r') =>
        if (Nat.eqb (nat_of_ascii z) 48 && is_x x)%bool then (16, r') else (10, r)
    | _ => (10, r)
    end in
  let (ds, _) := span (digit_in radix) r1 in
  match ds with
  | EmptyString => NaN
  | _ => ofZ (if neg then - digits_val radix 0 ds else digits_val radix 0 ds)
  end.

(** The radix announced by a [0x], [0o] or [0b] prefix. *)
Definition radix_prefix (s : string) : option (Z * string) :=
  match s with
  | String z (String k r) =>
      if Nat.eqb (nat_of_ascii z) 48 then
        let n := nat_of_ascii k in
        if (Nat.eqb n 120 || Nat.eqb n 88)%bool then Some (16, r)
        else if (Nat.eqb n 111 || Nat.eqb n 79)%bool then Some (8, r)
        else if (Nat.eqb n 98 || Nat.eqb n 66)%bool then Some (2, r)
        else None
      else None
  | _ => None
  end.

(** [Number(s)] on a string. *)
Definition Number (s : string) : number :=
  let t := trim s in
  match t with
  | EmptyString => ofZ 0
  | _ =>
      match radix_prefix t with
      | Some (radix, r) =>
          match span (digit_in radix) r with
          | (String _ _ as ds, EmptyString) => ofZ (digits_val radix 0 ds)
          | _ => NaN
          end
      | None =>
          match scan_decimal t with
          | Some (v, EmptyString) => v
          | _ => NaN
          end
      end
  end.

(** [parseFloat(line.split(' ').pop() || '0')] *)
Definition lineValue (line : string) : number :=
  parseFloat (or_default (pop (split " " line)) "0").

(** [parseInt(line.split(' ').pop() || '0')] *)
Definition lineIntValue (line : string) : number :=
  parseInt (or_default (pop (split " " line)) "0").

(** ** The regular expression of the CPU time lines *)

Definition quote : ascii := ascii_of_nat 34.
Definition not_quote (a : ascii) : bool := negb (Ascii.eqb a quote).

(** A match of [core="([^"]+)",mode="([^"]+)"] starting at the head of [s]. *)
Definition match_here (s : string) : option (string * string) :=
  match drop_prefix ("core=" ++ dq) s with
  | Some r1 =>
      let (core, r2) := span not_quote r1 in
      match core, drop_prefix (dq ++ ",mode=" ++ dq) r2 with
      | String _ _, Some r3 =>
          let (mode, r4) := span not_quote r3 in
          match mode, drop_prefix dq r4 with
          | String _ _, Some _ => Some (core, mode)
          | _, _ => None
          end
      | _, _ => None
      end
  | None => None
  end.

(** [line.match(/core="([^"]+)",mode="([^"]+)"/)]: the leftmost match. *)
Fixpoint match_core_mode (s : string) : option (string * string) :=
  match match_here s with
  | Some r => Some r
  | None =>
      match s with
      | EmptyString => None
      | String _ s' => match_core_mode s'
      end
  end.

(** ** Data of the page *)

Record Device := { id : string; ip : string; url : string; name : string }.

Record CoreUsage := {
  core : string;
  usage : number;
  frequency : number;
  index : number
}.

Record CoreTimeData := {
  idle : number;
  user : number;
  privileged : number;
  interrupt : number;
  dpc : number;
  total : number;
  lastTotal : number;
  lastIdle : number
}.

(** What a rejected request or a failing statement throws. *)
Inductive Thrown :=
  | AxiosError (ECONNABORTED : bool) (response : option Z) (request : bool)
               (message : string)
  | OtherError (message : option string).

(** The texts [fetchError] takes; [NoError] is the empty string. *)
Inductive ErrorText :=
  | NoError
  | FormatError
  | TimeoutError (ip : string)
  | ServerError (status : Z)
  | NetworkError
  | UnknownError (message : option string).

(** Network variables. *)
Record Net := {
  receivedData : number;
  sentData : number;
  totalData : number;
  bandwidth : number;
  receivedPackets : number;
  sentPackets : number;
  currentReceivedBytes : number;
  currentSentBytes : number
}.

(** CPU variables. *)
Record Cpu := { cpuUsage : number; cpuCores : number; cpuFreq : number }.

(** Memory variables. *)
Record Memory := { memoryTotal : number; memoryUsed : number; memoryFree : number }.

(** Disk variables. *)
Record Disk := { diskTotal : number; diskUsed : number; diskFree : number }.

(** Variables of the speed computation. *)
Record Rate := {
  receivedSpeed : number;
  sentSpeed : number;
  lastReceivedBytes : number;
  lastSentBytes : number;
  lastTimestamp : number
}.

Record Globals := {
  currentDevice : option Device;
  cpuCoreUsages : list CoreUsage;
  net : Net;
  cpu : Cpu;
  memory : Memory;
  disk : Disk;
  rate : Rate;
  fetchError : ErrorText;
  isLoading : bool;
  retryCount : Z;
  pollingInterval : bool
}.

Definition with_cpuCoreUsages v g :=
  {| currentDevice := currentDevice g; cpuCoreUsages := v; net := net g;
     cpu := cpu g; memory := memory g; disk := disk g; rate := rate g;
     fetchError := fetchError g; isLoading := isLoading g;
     retryCount := retryCount g; pollingInterval := pollingInterval g |}.
Definition with_net v g :=
  {| currentDevice := currentDevice g; cpuCoreUsages := cpuCoreUsages g; net := v;
     cpu := cpu g; memory := memory g; disk := disk g; rate := rate g;
     fetchError := fetchError g; isLoading := isLoading g;
     retryCount := retryCount g; pollingInterval := pollingInterval g |}.
Definition with_cpu v g :=
  {| currentDevice := currentDevice g; cpuCoreUsages := cpuCoreUsages g; net := net g;
     cpu := v; memory := memory g; disk := disk g; rate := rate g;
     fetchError := fetchError g; isLoading := isLoading g;
     retryCount := retryCount g; pollingInterval := pollingInterval g |}.
Definition with_memory v g :=
  {| currentDevice := currentDevice g; cpuCoreUsages := cpuCoreUsages g; net := net g;
     cpu := cpu g; memory := v; disk := disk g; rate := rate g;
     fetchError := fetchError g; isLoading := isLoading g;
     retryCount := retryCount g; pollingInterval := pollingInterval g |}.
Definition with_disk v g :=
  {| currentDevice := currentDevice g; cpuCoreUsages := cpuCoreUsages g; net := net g;
     cpu := cpu g; memory := memory g; disk := v; rate := rate g;
     fetchError := fetchError g; isLoading := isLoading g;
     retryCount := retryCount g; pollingInterval := pollingInterval g |}.
Definition with_rate v g :=
  {| currentDevice := currentDevice g; cpuCoreUsages := cpuCoreUsages g; net := net g;
     cpu := cpu g; memory := memory g; disk := disk g; rate := v;
     fetchError := fetchError g; isLoading := isLoading g;
     retryCount := retryCount g; pollingInterval := pollingInterval g |}.
Definition with_fetchError v g :=
  {| currentDevice := currentDevice g; cpuCoreUsages := cpuCoreUsages g; net := net g;
     cpu := cpu g; memory := memory g; disk := disk g; rate := rate g;
     fetchError := v; isLoading := isLoading g;
     retryCount := retryCount g; pollingInterval := pollingInterval g |}.
Definition with_isLoading v g :=
  {| currentDevice := currentDevice g; cpuCoreUsages := cpuCoreUsages g; net := net g;
     cpu := cpu g; memory := memory g; disk := disk g; rate := rate g;
     fetchError := fetchError g; isLoading := v;
     retryCount := retryCount g; pollingInterval := pollingInterval g |}.
Definition with_retryCount v g :=
  {| currentDevice := currentDevice g; cpuCoreUsages := cpuCoreUsages g; net := net g;
     cpu := cpu g; memory := memory g; disk := disk g; rate := rate g;
     fetchError := fetchError g; isLoading := isLoading g;
     retryCount := v; pollingInterval := pollingInterval g |}.
Definition with_pollingInterval v g :=
  {| currentDevice := currentDevice g; cpuCoreUsages := cpuCoreUsages g; net := net g;
     cpu := cpu g; memory := memory g; disk := disk g; rate := rate g;
     fetchError := fetchError g; isLoading := isLoading g;
     retryCount := retryCount g; pollingInterval := v |}.
Definition with_currentDevice v g :=
  {| currentDevice := v; cpuCoreUsages := cpuCoreUsages g; net := net g;
     cpu := cpu g; memory := memory g; disk := disk g; rate := rate g;
     fetchError := fetchError g; isLoading := isLoading g;
     retryCount := retryCount g; pollingInterval := pollingInterval g |}.

(** The values the variables are declared with; [t0] is [Date.now()] when the
    page is loaded. *)
Definition initial (t0 : Z) : Globals :=
  {| currentDevice := None;
     cpuCoreUsages := [];
     net := {| receivedData := ofZ 0; sentData := ofZ 0; totalData := ofZ 0;
               bandwidth := ofZ 0; receivedPackets := ofZ 0; sentPackets := ofZ 0;
               currentReceivedBytes := ofZ 0; currentSentBytes := ofZ 0 |};
     cpu := {| cpuUsage := ofZ 0; cpuCores := ofZ 0; cpuFreq := ofZ 0 |};
     memory := {| memoryTotal := ofZ 0; memoryUsed := ofZ 0; memoryFree := ofZ 0 |};
     disk := {| diskTotal := ofZ 0; diskUsed := ofZ 0; diskFree := ofZ 0 |};
     rate := {| receivedSpeed := ofZ 0; sentSpeed := ofZ 0;
                lastReceivedBytes := ofZ 0; lastSentBytes := ofZ 0;
                lastTimestamp := ofZ t0 |};
     fetchError := NoError;
     isLoading := false;
     retryCount := 0;
     pollingInterval := false |}.

(** How a statement ends: normally, or by throwing; either way with the
    variables as they are at that point. *)
Inductive completion (A : Type) : Type :=
  | Normal (a : A)
  | Throw (a : A) (e : Thrown).
Arguments Normal {A} a.
Arguments Throw {A} a e.

(** ** One pass over the lines of a response *)

(** [coreTimes]: a [Map] keeps its keys in insertion order. *)
Definition CoreTimes := list (string * CoreTimeData).

Fixpoint Map_has (k : string) (m : CoreTimes) : bool :=
  match m with
  | [] => false
  | (k', _) :: m' => String.eqb k' k || Map_has k m'
  end.

Fixpoint Map_get (k : string) (m : CoreTimes) : option CoreTimeData :=
  match m with
  | [] => None
  | (k', v) :: m' => if String.eqb k' k then Some v else Map_get k m'
  end.

Fixpoint Map_set (k : string) (v : CoreTimeData) (m : CoreTimes) : CoreTimes :=
  match m with
  | [] => [(k, v)]
  | (k', v') :: m' =>
      if String.eqb k' k then (k', v) :: m' else (k', v') :: Map_set k v m'
  end.

Definition newCoreTimeData : CoreTimeData :=
  {| idle := ofZ 0; user := ofZ 0; privileged := ofZ 0; interrupt := ofZ 0;
     dpc := ofZ 0; total := ofZ 0; lastTotal := ofZ 0; lastIdle := ofZ 0 |}.

(** [coreData[mode] = value]: a name that is no field adds a property that
    nothing reads. *)
Definition setField (mode : string) (value : number) (d : CoreTimeData)
  : CoreTimeData :=
  let pick f := if String.eqb mode f then fun _ : number => value else fun old => old in
  {| idle := pick "idle" (idle d);
     user := pick "user" (user d);
     privileged := pick "privileged" (privileged d);
     interrupt := pick "interrupt" (interrupt d);
     dpc := pick "dpc" (dpc d);
     total := pick "total" (total d);
     lastTotal := pick "lastTotal" (lastTotal d);
     lastIdle := pick "lastIdle" (lastIdle d) |}.

Definition saveIdle (value : number) (d : CoreTimeData) : CoreTimeData :=
  {| idle := value; user := user d; privileged := privileged d;
     interrupt := interrupt d; dpc := dpc d; total := total d;
     lastTotal := lastTotal d; lastIdle := idle d |}.

Definition newTotal (d : CoreTimeData) : CoreTimeData :=
  {| idle := idle d; user := user d; privileged := privileged d;
     interrupt := interrupt d; dpc := dpc d;
     total := (idle d + user d + privileged d + interrupt d + dpc d)%js;
     lastTotal := total d; lastIdle := lastIdle d |}.

(** The variables and the [coreTimes] map of the pass under way. *)
Record Pass := { vars : Globals; coreTimes : CoreTimes }.

Definition onVars (f : Globals -> Globals) (p : Pass) : Pass :=
  {| vars := f (vars p); coreTimes := coreTimes p |}.

(** The branch of [windows_cpu_time_total]. *)
Definition onCpuTime (line : string) (m : CoreTimes) : CoreTimes :=
  if includes "windows_cpu_time_total" line then
    match match_core_mode line with
    | Some (core, mode) =>
        let value := lineValue line in
        let m1 := if Map_has core m then m else Map_set core newCoreTimeData m in
        match Map_get core m1 with
        | Some coreData =>
            if negb (String.eqb mode "total") then
              let d1 := if String.eqb mode "idle" then saveIdle value coreData
                        else coreData in
              Map_set core (newTotal (setField mode value d1)) m1
            else m1
        | None => m1
        end
    | None => m
    end
  else m.

Definition GiB : number := (ofZ 1024 * ofZ 1024 * ofZ 1024)%js.

Definition onNetReceived (line : string) (n : Net) : Net :=
  if includes "windows_net_bytes_received_total" line then
    let value := lineValue line in
    {| receivedData := (value / GiB)%js; sentData := sentData n;
       totalData := totalData n; bandwidth := bandwidth n;
       receivedPackets := receivedPackets n; sentPackets := sentPackets n;
       currentReceivedBytes := value; currentSentBytes := currentSentBytes n |}
  else n.

Definition onNetSent (line : string) (n : Net) : Net :=
  if includes "windows_net_bytes_sent_total" line then
    let value := lineValue line in
    {| receivedData := receivedData n; sentData := (value / GiB)%js;
       totalData := totalData n; bandwidth := bandwidth n;
       receivedPackets := receivedPackets n; sentPackets := sentPackets n;
       currentReceivedBytes := currentReceivedBytes n; currentSentBytes := value |}
  else n.

(** The core label the two branches of the performance counters extract:
    of the text between the first opening brace and the next closing brace,
    split at the commas, the first part that includes [core=]; of that
    part, split at the quote characters, the element of index 1. *)
Definition counterCore (line : string) : option string :=
  let parts := split "," (hd "" (split "}" (nth 1 (split "{" line) ""))) in
  match find (includes "core=") parts with
  | Some p => nth_error (split quote p) 1
  | None => None
  end.

(** [thread + processor * 2] of those branches; a missing [thread] is
    [undefined] and makes the sum NaN.  The branches store into the arrays
    only when the index is no NaN and not negative. *)
Definition counterIndex (core : string) : number :=
  let ns := map Number (split "," core) in
  let processor := nth 0 ns NaN in
  let thread := nth 1 ns NaN in
  (thread + processor * ofZ 2)%js.

Definition MAX_ARRAY_LENGTH : Z := 4294967295.

(** The branch of [windows_cpu_logical_processor]; [new Array(value)] throws
    a [RangeError] for a length above 2^32 - 1, and the length of
    [cpuIdleTimes] is never that of such a value. *)
Definition onLogicalProcessor (line : string) (c : Cpu) : completion Cpu :=
  if includes "windows_cpu_logical_processor" line then
    let value := lineIntValue line in
    if (value > ofZ 0)%js then
      let c1 := {| cpuUsage := cpuUsage c; cpuCores := value; cpuFreq := cpuFreq c |} in
      if (value > ofZ MAX_ARRAY_LENGTH)%js
      then Throw c1 (OtherError (Some "Invalid array length"))
      else Normal c1
    else Normal c
  else Normal c.

Definition onFrequency (line : string) (c : Cpu) : Cpu :=
  if includes "windows_cpu_core_frequency_mhz" line then
    let value := lineValue line in
    if negb (isNaN value) then
      {| cpuUsage := cpuUsage c; cpuCores := cpuCores c;
         cpuFreq := (value / ofZ 1000)%js |}
    else c
  else c.

Definition onMemoryTotal (line : string) (m : Memory) : Memory :=
  if includes "windows_os_visible_memory_bytes" line then
    let value := lineValue line in
    {| memoryTotal := (value / GiB)%js; memoryUsed := memoryUsed m;
       memoryFree := memoryFree m |}
  else m.

Definition onMemoryAvailable (line : string) (m : Memory) : Memory :=
  if includes "windows_memory_available_bytes" line then
    let value := lineValue line in
    let free := (value / GiB)%js in
    {| memoryTotal := memoryTotal m;
       memoryUsed := Math_max (ofZ 0) (memoryTotal m - free)%js;
       memoryFree := free |}
  else m.

Definition diskSizeC : string :=
  "windows_logical_disk_size_bytes{volume=" ++ dq ++ "C:" ++ dq ++ "}".
Definition diskFreeC : string :=
  "windows_logical_disk_free_bytes{volume=" ++ dq ++ "C:" ++ dq ++ "}".

Definition onDiskSize (line : string) (d : Disk) : Disk :=
  if includes diskSizeC line then
    let value := lineValue line in
    {| diskTotal := (value / GiB)%js; diskUsed := diskUsed d; diskFree := diskFree d |}
  else d.

Definition onDiskFree (line : string) (d : Disk) : Disk :=
  if includes diskFreeC line then
    let value := lineValue line in
    let free := (value / GiB)%js in
    {| diskTotal := diskTotal d;
       diskUsed := Math_max (ofZ 0) (diskTotal d - free)%js;
       diskFree := free |}
  else d.

(** The body of [lines.forEach]: the branches in the order of the source.
    The two branches of the performance counters write the arrays only and
    change none of the variables kept here. *)
Definition processLine (line : string) (p : Pass) : completion Pass :=
  let m := onCpuTime line (coreTimes p) in
  let g1 := with_net (onNetSent line (onNetReceived line (net (vars p)))) (vars p) in
  match onLogicalProcessor line (cpu g1) with
  | Throw c e => Throw {| vars := with_cpu c g1; coreTimes := m |} e
  | Normal c =>
      let g2 := with_cpu (onFrequency line c) g1 in
      let g3 := with_memory (onMemoryAvailable line (onMemoryTotal line (memory g2))) g2 in
      let g4 := with_disk (onDiskFree line (onDiskSize line (disk g3))) g3 in
      Normal {| vars := g4; coreTimes := m |}
  end.

Fixpoint forEach (lines : list string) (p : Pass) : completion Pass :=
  match lines with
  | [] => Normal p
  | line :: rest =>
      match processLine line p with
      | Normal p' => forEach rest p'
      | Throw p' e => Throw p' e
      end
  end.

(** ** Derived statistics *)

(** [arr.reduce((p, c, i) => ..., init)] *)
Fixpoint reduceIndexed (f : number -> number -> nat -> number)
  (l : list number) (i : nat) (acc : number) : number :=
  match l with
  | [] => acc
  | c :: l' => reduceIndexed f l' (S i) (f acc c i)
  end.

(** The [index] of an entry of [cpuCoreUsages]. *)
Definition coreIndex (core : string) : number :=
  reduceIndexed
    (fun p c i => if Nat.eqb i 0 then (p + c * ofZ 2)%js else (p + c)%js)
    (map Number (split "," core)) 0 (ofZ 0).

Definition usageOf (data : CoreTimeData) : number :=
  let nonIdleTime := (user data + privileged data + interrupt data + dpc data)%js in
  let totalTime := (nonIdleTime + idle data)%js in
  if (totalTime > ofZ 0)%js then (nonIdleTime / totalTime * ofZ 100)%js else ofZ 0.

Definition toCoreUsage (cpuFreq : number) (entry : string * CoreTimeData) : CoreUsage :=
  {| core := fst entry;
     usage := usageOf (snd entry);
     frequency := cpuFreq;
     index := coreIndex (fst entry) |}.

(** [arr.sort((a, b) => a.index - b.index)]: the sort is stable; [x] goes
    behind the elements the comparison puts strictly before it.  A NaN
    result of the comparison counts as 0. *)
Fixpoint insert (x : CoreUsage) (l : list CoreUsage) : list CoreUsage :=
  match l with
  | [] => [x]
  | y :: l' =>
      if (index x - index y > ofZ 0)%js then y :: insert x l' else x :: y :: l'
  end.

Fixpoint sort (l : list CoreUsage) : list CoreUsage :=
  match l with
  | [] => []
  | x :: l' => insert x (sort l')
  end.

Definition averageUsage (l : list CoreUsage) : number :=
  (fold_left (fun sum c => (sum + usage c)%js) l (ofZ 0)
   / ofZ (Z.of_nat (List.length l)))%js.

(** [((current - last) / timeDiff) / (1024 * 1024) * 8] *)
Definition speedMbps (current last timeDiff : number) : number :=
  ((current - last) / timeDiff / (ofZ 1024 * ofZ 1024) * ofZ 8)%js.

Definition updateRate (now : Z) (n : Net) (r : Rate) : Rate :=
  let currentTimestamp := ofZ now in
  let timeDiff := ((currentTimestamp - lastTimestamp r) / ofZ 1000)%js in
  let known := ((lastReceivedBytes r > ofZ 0)%js && (lastSentBytes r > ofZ 0)%js)%bool in
  {| receivedSpeed :=
       if known then speedMbps (currentReceivedBytes n) (lastReceivedBytes r) timeDiff
       else receivedSpeed r;
     sentSpeed :=
       if known then speedMbps (currentSentBytes n) (lastSentBytes r) timeDiff
       else sentSpeed r;
     lastReceivedBytes := currentReceivedBytes n;
     lastSentBytes := currentSentBytes n;
     lastTimestamp := currentTimestamp |}.

(** What follows [lines.forEach] in the [try] block. *)
Definition afterLines (now : Z) (p : Pass) : Globals :=
  let g := vars p in
  let usages := sort (map (toCoreUsage (cpuFreq (cpu g))) (coreTimes p)) in
  let g1 := with_cpuCoreUsages usages g in
  let g2 := with_cpu {| cpuUsage := averageUsage usages; cpuCores := cpuCores (cpu g1);
                        cpuFreq := cpuFreq (cpu g1) |} g1 in
  with_rate (updateRate now (net g2) (rate g2)) g2.

(** The [try] block once the response is a string. *)
Definition parseMetrics (metrics : string) (now : Z) (g : Globals)
  : completion Globals :=
  match forEach (split (ascii_of_nat 10) metrics) {| vars := g; coreTimes := [] |} with
  | Normal p => Normal (afterLines now p)
  | Throw p e => Throw (vars p) e
  end.

(** ** [fetchMetrics] *)

Inductive ResponseData := TextData (metrics : string) | OtherData.

(** What [axios.get] settles to. *)
Inductive FetchResult := Resolved (data : ResponseData) | Rejected (e : Thrown).

Definition errorText (dev : Device) (e : Thrown) : ErrorText :=
  match e with
  | AxiosError aborted response request message =>
      if aborted then TimeoutError (ip dev)
      else match response with
           | Some status => ServerError status
           | None => if request then NetworkError else UnknownError (Some message)
           end
  | OtherError message => UnknownError message
  end.

(** The [catch] block. *)
Definition onError (dev : Device) (e : Thrown) (g : Globals) : Globals :=
  let g1 := with_fetchError (errorText dev e) g in
  let g2 := with_rate {| receivedSpeed := ofZ 0; sentSpeed := ofZ 0;
                         lastReceivedBytes := lastReceivedBytes (rate g1);
                         lastSentBytes := lastSentBytes (rate g1);
                         lastTimestamp := lastTimestamp (rate g1) |} g1 in
  let g3 := with_memory {| memoryTotal := ofZ 0; memoryUsed := ofZ 0;
                           memoryFree := memoryFree (memory g2) |} g2 in
  with_disk {| diskTotal := ofZ 0; diskUsed := ofZ 0;
               diskFree := diskFree (disk g3) |} g3.

(** [fetchMetrics], given what the request settles to and the value of
    [Date.now()] after the lines are processed.  The device selected when
    the request is made is still the one selected when it settles. *)
Definition fetchMetrics (r : FetchResult) (now : Z) (g : Globals)
  : completion Globals :=
  match currentDevice g with
  | None => Normal g
  | Some dev =>
      let g0 := with_fetchError NoError (with_isLoading true g) in
      let tried :=
        match r with
        | Rejected e => Throw g0 e
        | Resolved OtherData => Normal (with_fetchError FormatError g0)
        | Resolved (TextData metrics) => parseMetrics metrics now g0
        end in
      let caught :=
        match tried with
        | Normal g1 => g1
        | Throw g1 e => onError dev e g1
        end in
      Normal (with_isLoading false caught)
  end.

(** ** Retry and polling *)

Definition MAX_RETRIES : Z := 3.
Definition RETRY_DELAY : Z := 2000.

Inductive Callback := cbTryFetchMetrics | cbFetchMetricsWithRetry.

(** [tryFetchMetrics]: the variables after the call and the timeouts it
    sets, each with its delay. *)
Definition tryFetchMetrics (r : FetchResult) (now : Z) (g : Globals)
  : Globals * list (Z * Callback) :=
  match currentDevice g with
  | None => (g, [])
  | Some _ =>
      match fetchMetrics r now g with
      | Normal g1 => (with_retryCount 0 g1, [])
      | Throw g1 _ =>
          if (retryCount g1 <? MAX_RETRIES)%Z
          then (with_retryCount (retryCount g1 + 1) g1,
                [(RETRY_DELAY, cbTryFetchMetrics)])
          else (g1, [])
      end
  end.

Definition fetchMetricsWithRetry (r : FetchResult) (now : Z) (g : Globals)
  : Globals * list (Z * Callback) :=
  tryFetchMetrics r now (with_retryCount 0 g).

(** [resetAllData], called when the last device is removed. *)
Definition resetAllData (now : Z) (g : Globals) : Globals :=
  let zero := ofZ 0 in
  let g1 := with_net {| receivedData := zero; sentData := zero; totalData := zero;
                        bandwidth := zero; receivedPackets := zero;
                        sentPackets := zero; currentReceivedBytes := zero;
                        currentSentBytes := zero |} g in
  let g2 := with_rate {| receivedSpeed := zero; sentSpeed := zero;
                         lastReceivedBytes := zero; lastSentBytes := zero;
                         lastTimestamp := ofZ now |} g1 in
  let g3 := with_memory {| memoryTotal := zero; memoryUsed := zero;
                           memoryFree := zero |} g2 in
  with_disk {| diskTotal := zero; diskUsed := zero; diskFree := zero |} g3.

(** The event loop as far as polling goes: the clock, the variables, the
    timeouts pending (with their due times), the next tick of the interval
    when one is set, and the callbacks run so far with their times.  A
    request settles in the turn that makes it. *)
Record Loop := {
  clock : Z;
  state : Globals;
  timeouts : list (Z * Callback);
  interval : option Z;
  log : list (Z * Callback)
}.

Definition POLL_INTERVAL : Z := 2000.

Definition due (now : Z) (ts : list (Z * Callback)) : list (Z * Callback) :=
  map (fun t => (now + fst t, snd t)) ts.

(** [startPolling] *)
Definition startPolling (r : FetchResult) (l : Loop) : Loop :=
  if pollingInterval (state l) then l
  else
    let (g, ts) := fetchMetricsWithRetry r (clock l) (state l) in
    {| clock := clock l;
       state := with_pollingInterval true g;
       timeouts := (timeouts l ++ due (clock l) ts)%list;
       interval := Some (clock l + POLL_INTERVAL);
       log := (log l ++ [(clock l, cbFetchMetricsWithRetry)])%list |}.

(** The pending timeout that is due first (the older one on a tie) and the
    others. *)
Fixpoint earliest (ts : list (Z * Callback))
  : option ((Z * Callback) * list (Z * Callback)) :=
  match ts with
  | [] => None
  | t :: ts' =>
      match earliest ts' with
      | Some (m, others) =>
          if (fst m <? fst t)%Z then Some (m, t :: others) else Some (t, ts')
      | None => Some (t, [])
      end
  end.

Definition runCallback (cb : Callback) (r : FetchResult) (now : Z) (g : Globals)
  : Globals * list (Z * Callback) :=
  match cb with
  | cbTryFetchMetrics => tryFetchMetrics r now g
  | cbFetchMetricsWithRetry => fetchMetricsWithRetry r now g
  end.

Definition fire (at_ : Z) (cb : Callback) (r : FetchResult) (l : Loop)
  (timeouts' : list (Z * Callback)) (interval' : option Z) : Loop :=
  let (g, ts) := runCallback cb r at_ (state l) in
  {| clock := at_;
     state := g;
     timeouts := (timeouts' ++ due at_ ts)%list;
     interval := interval';
     log := (log l ++ [(at_, cb)])%list |}.

(** One turn: the timer that is due first fires (a timeout before the
    interval on a tie); [r] is what its request settles to. *)
Definition turn (r : FetchResult) (l : Loop) : Loop :=
  match earliest (timeouts l), interval l with
  | Some ((t, cb), others), Some tick =>
      if (t <=? tick)%Z then fire t cb r l others (Some tick)
      else fire tick cbFetchMetricsWithRetry r l (timeouts l) (Some (tick + POLL_INTERVAL))
  | Some ((t, cb), others), None => fire t cb r l others None
  | None, Some tick =>
      fire tick cbFetchMetricsWithRetry r l [] (Some (tick + POLL_INTERVAL))
  | None, None => l
  end.

Definition turns (rs : list FetchResult) (l : Loop) : Loop :=
  fold_left (fun l r => turn r l) rs l.

(** The page once a device is selected, before [startPolling] runs. *)
Definition pageWith (dev : Device) (t0 : Z) : Loop :=
  {| clock := t0;
     state := with_currentDevice (Some dev) (initial t0);
     timeouts := [];
     interval := None;
     log := [] |}.

(** ** Notions used in the statements *)

(** The variables after [fetchMetrics] has run. *)
Definition after (c : completion Globals) : Globals :=
  match c with Normal g => g | Throw g _ => g end.

(** ** Sample inputs *)

Definition unlines (l : list string) : string := String.concat nl l.

Definition labelled (metric label value rest : string) : string :=
  metric ++ "{" ++ label ++ "=" ++ dq ++ value ++ dq ++ rest.

Definition cpuTimeLine (core mode value : string) : string :=
  labelled "windows_cpu_time_total" "core" core
    (",mode=" ++ dq ++ mode ++ dq ++ "} " ++ value).

Definition receivedLine (value : string) : string :=
  labelled "windows_net_bytes_received_total" "nic" "Ethernet" ("} " ++ value).

Definition sentLine (value : string) : string :=
  labelled "windows_net_bytes_sent_total" "nic" "Ethernet" ("} " ++ value).

Definition sampleDevice : Device :=
  {| id := "1"; ip := "192.168.1.10"; url := "/api/metrics"; name := "pc" |}.

(** The variables once [sampleDevice] is selected on a page loaded at time 0. *)
Definition selected : Globals := with_currentDevice (Some sampleDevice) (initial 0).

Definition timeout : Thrown := AxiosError true None true "timeout of 10000ms exceeded".

(** A response with the gauges of memory and disk, each total before the
    value that is free. *)
Definition gaugeBlob : string :=
  unlines [ "windows_os_visible_memory_bytes 17179869184";
            "windows_memory_available_bytes 8589934592";
            diskSizeC ++ " 214748364800";
            diskFreeC ++ " 107374182400" ].

(** The same gauges in the alphabetical order of the metric names. *)
Definition sortedGaugeBlob : string :=
  unlines [ diskFreeC ++ " 107374182400";
            diskSizeC ++ " 214748364800";
            "windows_memory_available_bytes 8589934592";
            "windows_os_visible_memory_bytes 17179869184" ].

(** The variables after a first successful cycle on [gaugeBlob]. *)
Definition afterGauges : Globals :=
  after (fetchMetrics (Resolved (TextData gaugeBlob)) 2000 selected).

(** Two cycles 2 s apart in which the received counter falls from
    1,000,000,000 to 500,000,000. *)
Definition beforeReset : Globals :=
  after (fetchMetrics
           (Resolved (TextData (unlines [receivedLine "1000000000"; sentLine "5000"])))
           2000 selected).

Definition afterReset : Globals :=
  after (fetchMetrics
           (Resolved (TextData (unlines [receivedLine "500000000"; sentLine "6000"])))
           4000 beforeReset).

(** Two cycles 2.5 s apart in which the received counter grows from
    1,000,000,000 to 1,031,250,000 while the sent counter reads 0. *)
Definition idleSender : Globals :=
  after (fetchMetrics
           (Resolved (TextData (unlines [receivedLine "1000000000"; sentLine "0"])))
           2000 selected).

Definition idleSenderNext : Globals :=
  after (fetchMetrics
           (Resolved (TextData (unlines [receivedLine "1031250000"; sentLine "0"])))
           4500 idleSender).

(** The same two cycles with a sent counter that is not 0. *)
Definition busySender : Globals :=
  after (fetchMetrics
           (Resolved (TextData (unlines [receivedLine "1000000000"; sentLine "5000"])))
           2000 selected).

Definition busySenderNext : Globals :=
  after (fetchMetrics
           (Resolved (TextData (unlines [receivedLine "1031250000"; sentLine "6000"])))
           4500 busySender).

(** A core with 30 s idle and 10 s in each of the other four modes. *)
Definition halfBusy : CoreTimeData :=
  {| idle := ofZ 30; user := ofZ 10; privileged := ofZ 10; interrupt := ofZ 10;
     dpc := ofZ 10; total := ofZ 70; lastTotal := ofZ 60; lastIdle := ofZ 0 |}.

(** A response whose total memory line carries a word for a value. *)
Definition wordBlob : string :=
  unlines [ "windows_os_visible_memory_bytes unknown";
            "windows_memory_available_bytes 8589934592";
            receivedLine "NaN" ].

Definition frequencyMetric : string := "windows_cpu_core_frequency_mhz".

(** A line that does not assign [cpuFreq]. *)
Definition keepsFrequency (line : string) : bool :=
  negb (includes frequencyMetric line) || isNaN (lineValue line).

(** Three cores listed from the last to the first, and two frequency lines. *)
Definition coresBlob : string :=
  unlines [ cpuTimeLine "1,0" "idle" "50"; cpuTimeLine "1,0" "user" "50";
            labelled frequencyMetric "core" "0,0" "} 2400";
            cpuTimeLine "0,1" "idle" "75"; cpuTimeLine "0,1" "user" "25";
            labelled frequencyMetric "core" "0,1" "} 3000";
            cpuTimeLine "0,0" "idle" "100"; cpuTimeLine "0,0" "user" "0" ].

Definition afterCores : Globals :=
  after (fetchMetrics (Resolved (TextData coresBlob)) 2000 selected).

Fixpoint allChars (p : ascii -> bool) (s : string) : bool :=
  match s with
  | EmptyString => true
  | String a s' => p a && allChars p s'
  end.

(** A decimal numeral: one digit or more, and digits only. *)
Definition numeral (s : string) : bool :=
  match s with
  | EmptyString => false
  | _ => allChars is_digit s
  end.

(** A core label of the form processor,thread. *)
Definition wellFormed (core : string) : bool :=
  match split "," core with
  | [processor; thread] => numeral processor && numeral thread
  | _ => false
  end.

(** The linear index in the words of the specification:
    thread + processor * threadsPerProcessor, with two threads per
    processor. *)
Definition threadsPerProcessor : Z := 2.

Definition linearIndex (core : string) : Z :=
  match split "," core with
  | [processor; thread] =>
      digits_val 10 0 thread + digits_val 10 0 processor * threadsPerProcessor
  | _ => 0
  end.

(** A line of the mperf counter with the core label 0,1. *)
Definition mperfLine : string :=
  labelled "windows_cpu_processor_mperf_total" "core" "0,1" "} 5".

(** An entry whose index is the integer [key] of its label. *)
Definition keyed (key : CoreUsage -> Z) (c : CoreUsage) : Prop :=
  (index c == ofZ (key c))%js.

(** A response that announces more logical processors than an array can
    have elements. *)
Definition hugeCountBlob : string :=
  unlines [ labelled frequencyMetric "core" "0,0" "} 1800";
            "windows_cpu_logical_processor 4294967296" ].

(** The variables a pass over the lines never assigns. *)
Definition frame (g : Globals) :=
  (currentDevice g, cpuCoreUsages g, rate g, fetchError g, isLoading g,
   retryCount g, pollingInterval g).

Definition passOf (c : completion Pass) : Pass :=
  match c with Normal p => p | Throw p _ => p end.

(** ** The device list and the end of polling *)

(** The list of devices and the two text inputs bound to the form. *)
Record Inputs := {
  devices : list Device;
  newDeviceIP : string;
  newDeviceName : string
}.

(** [Date.now().toString()] *)
Definition dateText (now : Z) : string := NilZero.string_of_int (Z.to_int now).

(** [addDevice]: the list, the inputs and the selection after the call, and
    whether the branch of the first device ran, which calls
    [initializeCharts], [fetchMetricsWithRetry] and [startPolling].  The
    list is then written to the local storage and posted to the server. *)
Definition addDevice (now : Z) (i : Inputs) (g : Globals)
  : Inputs * Globals * bool :=
  match newDeviceIP i, newDeviceName i with
  | EmptyString, _ | _, EmptyString => (i, g, false)
  | _, _ =>
      let device := {| id := dateText now; ip := newDeviceIP i;
                       url := "/api/metrics"; name := newDeviceName i |} in
      let i' := {| devices := (devices i ++ [device])%list;
                   newDeviceIP := ""; newDeviceName := "" |} in
      match currentDevice g with
      | None => (i', with_currentDevice (Some device) g, true)
      | Some _ => (i', g, false)
      end
  end.

(** [stopPolling] *)
Definition stopPolling (l : Loop) : Loop :=
  if pollingInterval (state l) then
    {| clock := clock l;
       state := with_pollingInterval false (state l);
       timeouts := timeouts l;
       interval := None;
       log := log l |}
  else l.

Definition onState (f : Globals -> Globals) (l : Loop) : Loop :=
  {| clock := clock l; state := f (state l); timeouts := timeouts l;
     interval := interval l; log := log l |}.

(** The page when the user acts at the time [now]. *)
Definition atTime (now : Z) (l : Loop) : Loop :=
  {| clock := now; state := state l; timeouts := timeouts l;
     interval := interval l; log := log l |}.

(** [removeDevice(id)] at the time [now]; [r] is what the request of
    [startPolling] settles to when the device removed is the selected one
    and others remain. *)
Definition removeDevice (now : Z) (id_ : string) (r : FetchResult) (i : Inputs)
  (l : Loop) : Inputs * Loop :=
  let rest := filter (fun d => negb (String.eqb (id d) id_)) (devices i) in
  let i' := {| devices := rest; newDeviceIP := newDeviceIP i;
               newDeviceName := newDeviceName i |} in
  match currentDevice (state l) with
  | Some c =>
      if String.eqb (id c) id_ then
        let l1 := onState (with_currentDevice (hd_error rest)) (atTime now l) in
        match hd_error rest with
        | None => (i', onState (resetAllData now) (stopPolling l1))
        | Some _ => (i', startPolling r (stopPolling l1))
        end
      else (i', l)
  | None => (i', l)
  end.

(** [selectDevice], as far as the variables go; it also destroys the charts
    and sets a timeout of 500 ms that calls [initializeCharts] and
    [startPolling]. *)
Definition selectDevice (device : Device) (g : Globals) : Globals :=
  with_isLoading false (with_fetchError NoError (with_currentDevice (Some device) g)).

(** ** More notions used in the statements *)

(** The selected device is one of the list, and one is selected as soon as
    the list is not empty. *)
Definition selectionOk (ds : list Device) (g : Globals) : Prop :=
  match currentDevice g with
  | Some c => In c ds
  | None => ds = []
  end.


Definition receivedMetric : string := "windows_net_bytes_received_total".

(** A line of the CPU times that names the core [c]. *)
Definition namesCore (c : string) (line : string) : Prop :=
  includes "windows_cpu_time_total" line = true /\
  exists mode, match_core_mode line = Some (c, mode).

(** A number that is finite and not negative. *)
Definition nonNegative (x : number) : bool :=
  match x with
  | Fin q => Qle_bool 0 q
  | _ => false
  end.

Definition timesOk (d : CoreTimeData) : bool :=
  nonNegative (idle d) && nonNegative (user d) && nonNegative (privileged d)
  && nonNegative (interrupt d) && nonNegative (dpc d).

(** The start of the pass of [fetchMetrics] on the variables [g]. *)
Definition startOf (g : Globals) : Pass :=
  {| vars := with_fetchError NoError (with_isLoading true g); coreTimes := [] |}.

Definition linesOf (metrics : string) : list string := split (ascii_of_nat 10) metrics.

(** The page after [startPolling] and one turn for each of [rs]. *)
Definition polled (dev : Device) (t0 : Z) (r0 : FetchResult) (rs : list FetchResult)
  : Loop :=
  turns rs (startPolling r0 (pageWith dev t0)).

(** A response with two adapters and a later one without network lines. *)
Definition twoAdapters : string :=
  unlines [ labelled receivedMetric "nic" "Ethernet" "} 7000";
            sentLine "5000";
            labelled receivedMetric "nic" "Wi-Fi" "} 1000" ].

Definition afterTwoAdapters : Globals :=
  after (fetchMetrics (Resolved (TextData twoAdapters)) 2000 selected).

Definition afterSilence : Globals :=
  after (fetchMetrics (Resolved (TextData gaugeBlob)) 4000 busySender).

Definition otherDevice : Device :=
  {| id := "2"; ip := "192.168.1.11"; url := "/api/metrics"; name := "laptop" |}.

Definition formFilled : Inputs :=
  {| devices := [sampleDevice]; newDeviceIP := "192.168.1.11";
     newDeviceName := "laptop" |}.

(** ** Bounds that keep binary64 out of reach of the abstractions *)

(** Half the range of binary64: a sum of numbers that are not negative and
    add up to this bound at most stays finite in binary64, whatever the
    rounding of the partial sums. *)
Definition HALF_RANGE : Q := inject_Z (2 ^ 1023).

(** A finite number between 0 and 2^1020: five of them add up to less than
    [HALF_RANGE]. *)
Definition moderate (x : number) : bool :=
  match x with
  | Fin q => Qle_bool 0 q && Qle_bool q (inject_Z (2 ^ 1020))
  | _ => false
  end.



(** A core whose user time reads [Infinity]. *)
Definition endlessLine : string := cpuTimeLine "0,0" "user" "Infinity".

Definition endless : CoreTimeData :=
  {| idle := ofZ 0; user := Inf false; privileged := ofZ 0; interrupt := ofZ 0;
     dpc := ofZ 0; total := Inf false; lastTotal := ofZ 0; lastIdle := ofZ 0 |}.

Definition afterEndless : Globals :=
  after (fetchMetrics (Resolved (TextData endlessLine)) 2000 selected).

(** A response as an exporter prints it, with the comment lines of the
    metric before its samples. *)
Definition exporterBlob : string :=
  unlines [ "# HELP windows_cpu_time_total Time that processor spent in different modes (dpc, idle, interrupt, privileged, user)";
            "# TYPE windows_cpu_time_total counter";
            cpuTimeLine "0,0" "idle" "300"; cpuTimeLine "0,0" "user" "100";
            cpuTimeLine "0,1" "idle" "100"; cpuTimeLine "0,1" "privileged" "100" ].

Definition afterExporter : Globals :=
  after (fetchMetrics (Resolved (TextData exporterBlob)) 2000 selected).

(** * Properties *)

(** ** [fetchMetrics] handles its own failures *)

Lemma fetchMetrics_returns (r : FetchResult) (now : Z) (g : Globals) :
  fetchMetrics r now g = Normal (after (fetchMetrics r now g)).
Proof.
  unfold fetchMetrics. destruct (currentDevice g); reflexivity.
Qed.

Lemma tryFetchMetrics_no_retry (r : FetchResult) (now : Z) (g : Globals) :
  snd (tryFetchMetrics r now g) = [].
Proof.
  unfold tryFetchMetrics. destruct (currentDevice g); [|reflexivity].
  rewrite fetchMetrics_returns. reflexivity.
Qed.

Lemma tryFetchMetrics_device (r : FetchResult) (now : Z) (g : Globals) (dev : Device) :
  currentDevice g = Some dev ->
  tryFetchMetrics r now g = (with_retryCount 0 (after (fetchMetrics r now g)), []).
Proof.
  intros Hd. unfold tryFetchMetrics. rewrite Hd, fetchMetrics_returns. reflexivity.
Qed.

Lemma fetchMetrics_rejected (e : Thrown) (now : Z) (g : Globals) (dev : Device) :
  currentDevice g = Some dev ->
  fetchMetrics (Rejected e) now g =
  Normal (with_isLoading false
            (onError dev e (with_fetchError NoError (with_isLoading true g)))).
Proof.
  intros Hd. unfold fetchMetrics. rewrite Hd. reflexivity.
Qed.

Lemma errorText_set (dev : Device) (e : Thrown) : errorText dev e <> NoError.
Proof.
  destruct e as [aborted response request message | message]; simpl;
    [destruct aborted; [|destruct response; [|destruct request]] |]; discriminate.
Qed.

(** ** What a pass over the lines leaves alone *)

Lemma processLine_frame (line : string) (p : Pass) :
  frame (vars (passOf (processLine line p))) = frame (vars p).
Proof.
  unfold processLine.
  destruct (onLogicalProcessor _ _); reflexivity.
Qed.

Lemma forEach_frame (lines : list string) (p : Pass) :
  frame (vars (passOf (forEach lines p))) = frame (vars p).
Proof.
  revert p. induction lines as [|line rest IH]; intros p; simpl; [reflexivity|].
  pose proof (processLine_frame line p) as Hl.
  destruct (processLine line p) as [p'|p' e]; simpl in *.
  - rewrite IH. exact Hl.
  - exact Hl.
Qed.

Lemma forEach_rate (lines : list string) (p : Pass) :
  rate (vars (passOf (forEach lines p))) = rate (vars p).
Proof.
  pose proof (forEach_frame lines p) as H. unfold frame in H. congruence.
Qed.

Lemma forEach_fetchError (lines : list string) (p : Pass) :
  fetchError (vars (passOf (forEach lines p))) = fetchError (vars p).
Proof.
  pose proof (forEach_frame lines p) as H. unfold frame in H. congruence.
Qed.

(** A response that is a string, on a page with a device: either the pass
    completes and the statistics are derived, or a line throws and the
    [catch] block runs. *)
Lemma fetchMetrics_text (metrics : string) (now : Z) (g : Globals) (dev : Device) :
  currentDevice g = Some dev ->
  let start := {| vars := with_fetchError NoError (with_isLoading true g);
                  coreTimes := [] |} in
  match forEach (split (ascii_of_nat 10) metrics) start with
  | Normal p =>
      fetchMetrics (Resolved (TextData metrics)) now g =
      Normal (with_isLoading false (afterLines now p))
  | Throw p e =>
      fetchMetrics (Resolved (TextData metrics)) now g =
      Normal (with_isLoading false (onError dev e (vars p)))
  end.
Proof.
  intros Hd start. unfold fetchMetrics, parseMetrics. rewrite Hd. fold start.
  destruct (forEach _ start); reflexivity.
Qed.

(** With no error text left, the pass has completed. *)
Lemma fetchMetrics_success (metrics : string) (now : Z) (g g' : Globals) (dev : Device) :
  currentDevice g = Some dev ->
  fetchMetrics (Resolved (TextData metrics)) now g = Normal g' ->
  fetchError g' = NoError ->
  exists p,
    forEach (split (ascii_of_nat 10) metrics)
      {| vars := with_fetchError NoError (with_isLoading true g); coreTimes := [] |}
    = Normal p /\
    g' = with_isLoading false (afterLines now p).
Proof.
  intros Hd Hf He. pose proof (fetchMetrics_text metrics now g dev Hd) as H.
  cbv zeta in H.
  destruct (forEach _ _) as [p|p e] eqn:Hp.
  - exists p. split; [reflexivity|]. congruence.
  - exfalso. rewrite H in Hf. injection Hf as <-. simpl in He.
    exact (errorText_set dev e He).
Qed.

(** ** Retry and polling (C2) *)

Lemma fetchMetricsWithRetry_device (r : FetchResult) (now : Z) (g : Globals) (dev : Device) :
  currentDevice g = Some dev ->
  fetchMetricsWithRetry r now g =
  (with_retryCount 0 (after (fetchMetrics r now (with_retryCount 0 g))), []).
Proof.
  intros Hd. unfold fetchMetricsWithRetry.
  apply (tryFetchMetrics_device r now (with_retryCount 0 g) dev). exact Hd.
Qed.

Lemma rejected_state (e : Thrown) (now : Z) (g : Globals) (dev : Device) :
  currentDevice g = Some dev ->
  let g' := with_retryCount 0 (after (fetchMetrics (Rejected e) now (with_retryCount 0 g))) in
  currentDevice g' = Some dev /\ retryCount g' = 0 /\ fetchError g' = errorText dev e.
Proof.
  intros Hd g'. subst g'.
  rewrite (fetchMetrics_rejected e now (with_retryCount 0 g) dev Hd).
  cbn. auto.
Qed.

Opaque fetchMetrics.

(** A tick of the interval with no timeout pending, on a request that
    fails. *)
Lemma turn_tick (e : Thrown) (l : Loop) (tick : Z) (dev : Device) :
  timeouts l = [] -> interval l = Some tick ->
  currentDevice (state l) = Some dev ->
  let l' := turn (Rejected e) l in
  timeouts l' = [] /\ interval l' = Some (tick + POLL_INTERVAL) /\
  log l' = (log l ++ [(tick, cbFetchMetricsWithRetry)])%list /\
  currentDevice (state l') = Some dev /\
  retryCount (state l') = 0 /\
  fetchError (state l') = errorText dev e.
Proof.
  intros Ht Hi Hd l'. subst l'. unfold turn, fire, runCallback. rewrite Ht, Hi.
  cbn [earliest].
  rewrite (fetchMetricsWithRetry_device (Rejected e) tick (state l) dev Hd).
  cbn [timeouts interval log state due map app].
  destruct (rejected_state e tick (state l) dev Hd) as (H1 & H2 & H3).
  repeat split; assumption.
Qed.

Lemma startPolling_first (e : Thrown) (dev : Device) (t0 : Z) :
  let l' := startPolling (Rejected e) (pageWith dev t0) in
  timeouts l' = [] /\ interval l' = Some (t0 + POLL_INTERVAL) /\
  log l' = [(t0, cbFetchMetricsWithRetry)] /\
  currentDevice (state l') = Some dev /\
  retryCount (state l') = 0 /\
  fetchError (state l') = errorText dev e.
Proof.
  intros l'. subst l'. unfold startPolling.
  assert (Hd : currentDevice (state (pageWith dev t0)) = Some dev) by reflexivity.
  change (pollingInterval (state (pageWith dev t0))) with false. cbv iota.
  rewrite (fetchMetricsWithRetry_device (Rejected e) _ _ dev Hd).
  cbn [timeouts interval log state due map app pageWith clock].
  destruct (rejected_state e t0 (state (pageWith dev t0)) dev Hd) as (H1 & H2 & H3).
  cbn [state pageWith] in H1, H2, H3.
  repeat split; assumption.
Qed.

(** C2, as the code runs it: on four requests in a row that fail, whatever
    the failures, the only callbacks that run are the first call of
    [fetchMetricsWithRetry] and the three following ticks of the 2000 ms
    interval; [tryFetchMetrics] sets no retry timeout, [retryCount] is 0
    throughout, and each failure is written to [fetchError] at once.  No
    retry 2000 ms after a failure takes place, because [fetchMetrics]
    catches every failure itself and returns normally. *)
Theorem four_failures_no_retry (dev : Device) (t0 : Z) (e1 e2 e3 e4 : Thrown) :
  let l1 := startPolling (Rejected e1) (pageWith dev t0) in
  let l4 := turns [Rejected e2; Rejected e3; Rejected e4] l1 in
  snd (tryFetchMetrics (Rejected e1) t0 (state (pageWith dev t0))) = [] /\
  retryCount (state l1) = 0 /\ fetchError (state l1) = errorText dev e1 /\
  log l4 = [ (t0, cbFetchMetricsWithRetry);
             (t0 + 2000, cbFetchMetricsWithRetry);
             (t0 + 2000 + 2000, cbFetchMetricsWithRetry);
             (t0 + 2000 + 2000 + 2000, cbFetchMetricsWithRetry) ] /\
  timeouts l4 = [] /\
  retryCount (state l4) = 0 /\
  fetchError (state l4) = errorText dev e4.
Proof.
  intros l1 l4.
  split; [apply tryFetchMetrics_no_retry|].
  destruct (startPolling_first e1 dev t0) as (Ht1 & Hi1 & Hl1 & Hd1 & Hr1 & He1).
  fold l1 in Ht1, Hi1, Hl1, Hd1, Hr1, He1.
  split; [exact Hr1|]. split; [exact He1|].
  subst l4. unfold turns. cbn [fold_left].
  destruct (turn_tick e2 l1 _ dev Ht1 Hi1 Hd1) as (Ht2 & Hi2 & Hl2 & Hd2 & _ & _).
  set (l2 := turn (Rejected e2) l1) in *.
  destruct (turn_tick e3 l2 _ dev Ht2 Hi2 Hd2) as (Ht3 & Hi3 & Hl3 & Hd3 & _ & _).
  set (l3 := turn (Rejected e3) l2) in *.
  destruct (turn_tick e4 l3 _ dev Ht3 Hi3 Hd3) as (Ht4 & _ & Hl4 & _ & Hr4 & He4).
  rewrite Hl4, Hl3, Hl2, Hl1. repeat split; assumption.
Qed.

Transparent fetchMetrics.

(** ** The variables after a failure (C3) *)

(** C3, as the code runs it: when the request is rejected, the [catch] block
    sets [receivedSpeed], [sentSpeed], [memoryTotal], [memoryUsed],
    [diskTotal] and [diskUsed] to 0 and writes the error text, and the CPU
    variables and [cpuCoreUsages] keep their values; but [memoryFree] and
    [diskFree] keep their values too, and a response that is no string only
    writes the error text and resets nothing. *)
Theorem failure_resets_part (g : Globals) (dev : Device) (now : Z) (e : Thrown) :
  currentDevice g = Some dev ->
  let g1 := after (fetchMetrics (Rejected e) now g) in
  let g2 := after (fetchMetrics (Resolved OtherData) now g) in
  (receivedSpeed (rate g1) = ofZ 0 /\ sentSpeed (rate g1) = ofZ 0 /\
   memoryTotal (memory g1) = ofZ 0 /\ memoryUsed (memory g1) = ofZ 0 /\
   diskTotal (disk g1) = ofZ 0 /\ diskUsed (disk g1) = ofZ 0 /\
   fetchError g1 = errorText dev e /\ fetchError g1 <> NoError /\
   cpu g1 = cpu g /\ cpuCoreUsages g1 = cpuCoreUsages g) /\
  (memoryFree (memory g1) = memoryFree (memory g) /\
   diskFree (disk g1) = diskFree (disk g)) /\
  (fetchError g2 = FormatError /\
   rate g2 = rate g /\ memory g2 = memory g /\ disk g2 = disk g /\ cpu g2 = cpu g).
Proof.
  intros Hd g1 g2. subst g1 g2.
  rewrite (fetchMetrics_rejected e now g dev Hd).
  unfold fetchMetrics. rewrite Hd. cbn.
  pose proof (errorText_set dev e).
  repeat split; assumption.
Qed.

Lemma failure_resets_part_witness :
  memoryFree (memory afterGauges) = Fin (8589934592 # 1073741824) /\
  diskFree (disk afterGauges) = Fin (107374182400 # 1073741824) /\
  memoryFree (memory (after (fetchMetrics (Rejected timeout) 4000 afterGauges)))
  = memoryFree (memory afterGauges) /\
  diskFree (disk (after (fetchMetrics (Rejected timeout) 4000 afterGauges)))
  = diskFree (disk afterGauges).
Proof.
  split; [vm_compute; reflexivity|]. split; [vm_compute; reflexivity|].
  exact (proj1 (proj2 (failure_resets_part afterGauges sampleDevice 4000 timeout
                         ltac:(vm_compute; reflexivity)))).
Defined.

(** [resetAllData], the other place that clears the variables, clears the
    free values as well. *)
Remark resetAllData_clears_free (now : Z) (g : Globals) :
  memoryFree (memory (resetAllData now g)) = ofZ 0 /\
  diskFree (disk (resetAllData now g)) = ofZ 0.
Proof. split; reflexivity. Qed.

(** A line that throws ends the pass in the [catch] block with the CPU
    variables as the lines before it left them. *)
Remark thrown_line_keeps_partial_cpu :
  let g' := after (fetchMetrics (Resolved (TextData hugeCountBlob)) 4000 afterCores) in
  fetchError g' = UnknownError (Some "Invalid array length") /\
  cpuCores (cpu afterCores) = ofZ 0 /\ cpuCores (cpu g') = ofZ 4294967296 /\
  (cpuFreq (cpu afterCores) == ofZ 3)%js /\ (cpuFreq (cpu g') == Fin (18 # 10))%js.
Proof. vm_compute. repeat split; reflexivity. Qed.

(** ** The first cycle (C4) *)

Lemma afterLines_rate (now : Z) (p : Pass) :
  rate (afterLines now p) = updateRate now (net (vars p)) (rate (vars p)).
Proof. reflexivity. Qed.

Lemma updateRate_unknown (now : Z) (n : Net) (r : Rate) :
  ((lastReceivedBytes r > ofZ 0)%js && (lastSentBytes r > ofZ 0)%js)%bool = false ->
  receivedSpeed (updateRate now n r) = receivedSpeed r /\
  sentSpeed (updateRate now n r) = sentSpeed r.
Proof.
  intros H. unfold updateRate. cbn [receivedSpeed sentSpeed]. rewrite H. auto.
Qed.

(** The first cycle leaves both speeds at 0, whatever the response holds. *)
Lemma first_cycle_speeds (dev : Device) (t0 now : Z) (metrics : string) :
  let g' := after (fetchMetrics (Resolved (TextData metrics)) now
                     (with_currentDevice (Some dev) (initial t0))) in
  receivedSpeed (rate g') = ofZ 0 /\ sentSpeed (rate g') = ofZ 0.
Proof.
  intros g'. subst g'.
  set (g := with_currentDevice (Some dev) (initial t0)).
  assert (Hd : currentDevice g = Some dev) by reflexivity.
  pose proof (fetchMetrics_text metrics now g dev Hd) as H. cbv zeta in H.
  pose proof (forEach_rate (split (ascii_of_nat 10) metrics)
                {| vars := with_fetchError NoError (with_isLoading true g);
                   coreTimes := [] |}) as Hr.
  destruct (forEach _ _) as [p|p e]; rewrite H; cbn [after passOf] in *.
  - change (rate (with_isLoading false (afterLines now p)))
      with (rate (afterLines now p)).
    rewrite afterLines_rate, Hr.
    apply updateRate_unknown. reflexivity.
  - split; reflexivity.
Qed.

(** C4, as the code runs it: from the initial variables, every response
    leaves the receive and the send speed at 0.  The gauges are read in the
    same cycle, but [memoryUsed] and [diskUsed] are computed at the line of
    the free value from the total read so far: on a response that lists the
    free value before the total (the alphabetical order of the metric
    names), the first cycle shows a total of 16 GiB and 8 GiB free with 0
    used, and a disk of 200 GiB with 100 GiB free and 0 used; with the total
    listed first the used values are 8 GiB and 100 GiB. *)
Theorem first_cycle (dev : Device) (t0 now : Z) (metrics : string) :
  let g' := after (fetchMetrics (Resolved (TextData metrics)) now
                     (with_currentDevice (Some dev) (initial t0))) in
  (receivedSpeed (rate g') = ofZ 0 /\ sentSpeed (rate g') = ofZ 0) /\
  (let s := after (fetchMetrics (Resolved (TextData sortedGaugeBlob)) 2000 selected) in
   (memoryTotal (memory s) == ofZ 16)%js /\ (memoryFree (memory s) == ofZ 8)%js /\
   (memoryUsed (memory s) == ofZ 0)%js /\
   (diskTotal (disk s) == ofZ 200)%js /\ (diskFree (disk s) == ofZ 100)%js /\
   (diskUsed (disk s) == ofZ 0)%js) /\
  (let s := after (fetchMetrics (Resolved (TextData gaugeBlob)) 2000 selected) in
   (memoryTotal (memory s) == ofZ 16)%js /\ (memoryFree (memory s) == ofZ 8)%js /\
   (memoryUsed (memory s) == ofZ 8)%js /\
   (diskTotal (disk s) == ofZ 200)%js /\ (diskFree (disk s) == ofZ 100)%js /\
   (diskUsed (disk s) == ofZ 100)%js).
Proof.
  split; [apply first_cycle_speeds|].
  split; vm_compute; repeat split; reflexivity.
Qed.

(** ** Network speed (C1, C5) *)

Lemma Qzero_false (q : Q) : ~ (q == 0)%Q -> Qzero q = false.
Proof.
  intros H. unfold Qzero. destruct (Qnum q) eqn:E; try reflexivity.
  exfalso. apply H. unfold Qeq. rewrite E. reflexivity.
Qed.

Lemma ndiv_finite (a b : Q) : ~ (b == 0)%Q -> (Fin a / Fin b)%js = Fin (a / b)%Q.
Proof. intros H. unfold ndiv. rewrite (Qzero_false b H). reflexivity. Qed.

Lemma ngt_finite (a b : Q) : (Fin a > Fin b)%js = true <-> (b < a)%Q.
Proof.
  unfold ngt. rewrite negb_true_iff. split.
  - intros H. apply Qnot_le_lt. intros Hle. apply Qle_bool_iff in Hle. congruence.
  - intros H. destruct (Qle_bool a b) eqn:E; [|reflexivity].
    apply Qle_bool_iff in E. exfalso. exact (Qlt_not_le _ _ H E).
Qed.

(** The speed of finite counts over a finite elapsed time that is not 0. *)
Lemma speedMbps_finite (c l d : Q) :
  ~ (d == 0)%Q ->
  speedMbps (Fin c) (Fin l) (Fin d) =
  Fin ((c + - l) / d / (inject_Z 1024 * inject_Z 1024) * inject_Z 8)%Q.
Proof.
  intros H. unfold speedMbps, nsub, nopp, nadd.
  rewrite (ndiv_finite _ d H). reflexivity.
Qed.

Lemma timeDiff_finite (now : Z) (ts : Q) :
  ((ofZ now - Fin ts) / ofZ 1000)%js = Fin ((inject_Z now + - ts) / inject_Z 1000)%Q.
Proof. reflexivity. Qed.

Lemma updateRate_known (now : Z) (n : Net) (r : Rate) :
  (lastReceivedBytes r > ofZ 0)%js = true ->
  (lastSentBytes r > ofZ 0)%js = true ->
  let timeDiff := ((ofZ now - lastTimestamp r) / ofZ 1000)%js in
  receivedSpeed (updateRate now n r)
  = speedMbps (currentReceivedBytes n) (lastReceivedBytes r) timeDiff /\
  sentSpeed (updateRate now n r)
  = speedMbps (currentSentBytes n) (lastSentBytes r) timeDiff.
Proof.
  intros H1 H2. unfold updateRate. cbn [receivedSpeed sentSpeed].
  rewrite H1, H2. auto.
Qed.

(** After a cycle that completes, the speed variables are those of
    [updateRate] on the counters just read and the variables before. *)
Lemma success_rate (metrics : string) (now : Z) (g g' : Globals) (dev : Device) :
  currentDevice g = Some dev ->
  fetchMetrics (Resolved (TextData metrics)) now g = Normal g' ->
  fetchError g' = NoError ->
  rate g' = updateRate now (net g') (rate g).
Proof.
  intros Hd Hf He.
  destruct (fetchMetrics_success metrics now g g' dev Hd Hf He) as (p & Hp & ->).
  pose proof (forEach_rate (split (ascii_of_nat 10) metrics)
                {| vars := with_fetchError NoError (with_isLoading true g);
                   coreTimes := [] |}) as Hr.
  rewrite Hp in Hr. cbn [passOf vars] in Hr.
  change (rate (with_isLoading false (afterLines now p)))
    with (rate (afterLines now p)).
  rewrite afterLines_rate, Hr. reflexivity.
Qed.

(** C1, counterexample: the previous received counter is 1,000,000,000, the
    next response reads 500,000,000 two seconds later and the cycle
    completes; the receive speed comes out as -1907.3486328125, not 0. *)
Lemma reset_not_clamped :
  lastReceivedBytes (rate beforeReset) = ofZ 1000000000 /\
  currentReceivedBytes (net afterReset) = ofZ 500000000 /\
  fetchError afterReset = NoError /\
  (receivedSpeed (rate afterReset) == Fin (- (1953125 # 1024)))%js /\
  (ofZ 0 > receivedSpeed (rate afterReset))%js = true /\
  ~ (receivedSpeed (rate afterReset) == ofZ 0)%js.
Proof.
  vm_compute. repeat split; try reflexivity. discriminate.
Qed.

(** C1, amended: the code has no clamp.  In a cycle that completes, with
    both previous counters above 0 and a positive elapsed time, a received
    counter below the previous one gives the speed
    ((current - previous) / elapsedSeconds) / (1024 * 1024) * 8, which is
    negative. *)
Theorem reset_gives_negative_speed
  (metrics : string) (now : Z) (g g' : Globals) (dev : Device) (c l ts : Q) :
  currentDevice g = Some dev ->
  fetchMetrics (Resolved (TextData metrics)) now g = Normal g' ->
  fetchError g' = NoError ->
  lastReceivedBytes (rate g) = Fin l -> (0 < l)%Q ->
  (lastSentBytes (rate g) > ofZ 0)%js = true ->
  lastTimestamp (rate g) = Fin ts -> (ts < inject_Z now)%Q ->
  currentReceivedBytes (net g') = Fin c -> (c < l)%Q ->
  exists v : Q,
    receivedSpeed (rate g') = Fin v /\
    (v == (c - l) / ((inject_Z now - ts) / inject_Z 1000)
          / (inject_Z 1024 * inject_Z 1024) * inject_Z 8)%Q /\
    (v < 0)%Q.
Proof.
  intros Hd Hf He Hl Hlpos Hs Hts Hnow Hc Hlt.
  pose proof (success_rate metrics now g g' dev Hd Hf He) as Hr.
  assert (Hk : (lastReceivedBytes (rate g) > ofZ 0)%js = true)
    by (rewrite Hl; apply ngt_finite; exact Hlpos).
  destruct (updateRate_known now (net g') (rate g) Hk Hs) as [Hrs _].
  rewrite <- Hr in Hrs. rewrite Hc, Hl, Hts, timeDiff_finite in Hrs.
  set (d := ((inject_Z now + - ts) / inject_Z 1000)%Q) in *.
  assert (Hd0 : (0 < d)%Q).
  { subst d. apply Qlt_shift_div_l; [reflexivity|]. lra. }
  rewrite speedMbps_finite in Hrs by lra.
  eexists. split; [exact Hrs|]. split; [reflexivity|].
  assert (H1 : ((c + - l) / d < 0)%Q)
    by (apply Qlt_shift_div_r; [exact Hd0 | lra]).
  assert (H2 : ((c + - l) / d / (inject_Z 1024 * inject_Z 1024) < 0)%Q)
    by (apply Qlt_shift_div_r; [reflexivity | lra]).
  unfold inject_Z at 3. lra.
Qed.

Lemma reset_gives_negative_speed_witness :
  exists v : Q,
    receivedSpeed (rate afterReset) = Fin v /\
    (v == (inject_Z 500000000 - inject_Z 1000000000)
          / ((inject_Z 4000 - inject_Z 2000) / inject_Z 1000)
          / (inject_Z 1024 * inject_Z 1024) * inject_Z 8)%Q /\
    (v < 0)%Q.
Proof.
  apply (reset_gives_negative_speed
           (unlines [receivedLine "500000000"; sentLine "6000"])
           4000 beforeReset afterReset sampleDevice
           (inject_Z 500000000) (inject_Z 1000000000) (inject_Z 2000));
    vm_compute; reflexivity.
Defined.

(** C5, counterexample: the previous received counter is 1,000,000,000, the
    next response reads 1,031,250,000 2.5 s later and the cycle completes,
    but the sent counter of the previous cycle is 0: the receive speed is
    not computed and stays 0, where the formula gives 95.367431640625. *)
Lemma speed_needs_sent_counter :
  lastReceivedBytes (rate idleSender) = ofZ 1000000000 /\
  lastTimestamp (rate idleSender) = ofZ 2000 /\
  currentReceivedBytes (net idleSenderNext) = ofZ 1031250000 /\
  fetchError idleSenderNext = NoError /\
  receivedSpeed (rate idleSenderNext) = ofZ 0 /\
  (speedMbps (ofZ 1031250000) (ofZ 1000000000)
     ((ofZ 4500 - ofZ 2000) / ofZ 1000) == Fin (390625 # 4096))%js /\
  ~ (receivedSpeed (rate idleSenderNext)
     == speedMbps (ofZ 1031250000) (ofZ 1000000000)
          ((ofZ 4500 - ofZ 2000) / ofZ 1000))%js.
Proof.
  vm_compute. repeat split; try reflexivity. discriminate.
Qed.

(** C5, amended: in a cycle that completes, when the previous received
    counter and the previous sent counter are both above 0 and the elapsed
    time is positive, the receive speed is
    ((current - previous) / elapsedSeconds) / (1024 * 1024) * 8; from
    1,000,000,000 to 1,031,250,000 bytes over 2.5 s the expression is
    95.367431640625, within 0.01 of 95.37. *)
Theorem speed_formula
  (metrics : string) (now : Z) (g g' : Globals) (dev : Device) (c l ts : Q) :
  currentDevice g = Some dev ->
  fetchMetrics (Resolved (TextData metrics)) now g = Normal g' ->
  fetchError g' = NoError ->
  lastReceivedBytes (rate g) = Fin l -> (0 < l)%Q ->
  (lastSentBytes (rate g) > ofZ 0)%js = true ->
  lastTimestamp (rate g) = Fin ts -> (ts < inject_Z now)%Q ->
  currentReceivedBytes (net g') = Fin c ->
  (receivedSpeed (rate g')
   == Fin ((c - l) / ((inject_Z now - ts) / inject_Z 1000)
           / (inject_Z 1024 * inject_Z 1024) * inject_Z 8)%Q)%js /\
  (exists v : Q,
     speedMbps (ofZ 1031250000) (ofZ 1000000000) (Fin (5 # 2)) = Fin v /\
     (v == 390625 # 4096)%Q /\
     ((9537 # 100) - (1 # 100) < v)%Q /\ (v < (9537 # 100) + (1 # 100))%Q).
Proof.
  intros Hd Hf He Hl Hlpos Hs Hts Hnow Hc. split.
  - pose proof (success_rate metrics now g g' dev Hd Hf He) as Hr.
    assert (Hk : (lastReceivedBytes (rate g) > ofZ 0)%js = true)
      by (rewrite Hl; apply ngt_finite; exact Hlpos).
    destruct (updateRate_known now (net g') (rate g) Hk Hs) as [Hrs _].
    rewrite <- Hr in Hrs. rewrite Hc, Hl, Hts, timeDiff_finite in Hrs.
    assert (Hd0 : (0 < (inject_Z now + - ts) / inject_Z 1000)%Q)
      by (apply Qlt_shift_div_l; [reflexivity | lra]).
    rewrite speedMbps_finite in Hrs by lra.
    rewrite Hrs. cbn [num_eq]. reflexivity.
  - eexists. split; [reflexivity|]. vm_compute. repeat split; reflexivity.
Qed.

Lemma speed_formula_witness :
  (receivedSpeed (rate busySenderNext)
   == Fin ((inject_Z 1031250000 - inject_Z 1000000000)
           / ((inject_Z 4500 - inject_Z 2000) / inject_Z 1000)
           / (inject_Z 1024 * inject_Z 1024) * inject_Z 8)%Q)%js.
Proof.
  apply (speed_formula
           (unlines [receivedLine "1031250000"; sentLine "6000"])
           4500 busySender busySenderNext sampleDevice
           (inject_Z 1031250000) (inject_Z 1000000000) (inject_Z 2000));
    vm_compute; reflexivity.
Defined.

(** ** Usage of one core (C6) *)

(** C6, counterexample: a user time that reads [Infinity] is not negative,
    and the usage of its core is NaN, not a number between 0 and 100: the
    total is infinite, the test [totalTime > 0] holds and the quotient of the
    two infinities is NaN. *)
Lemma infinite_time_gives_NaN :
  lineValue endlessLine = Inf false /\
  (ofZ 0 > user endless)%js = false /\ (user endless > ofZ 0)%js = true /\
  usageOf endless = NaN /\
  fetchError afterEndless = NoError /\
  map usage (cpuCoreUsages afterEndless) = [NaN].
Proof. vm_compute. repeat split; reflexivity. Qed.

(** C6, amended: for a core whose idle, user, privileged, interrupt and dpc
    times are finite, not negative and add up to 2^1023 at most (so that no
    sum leaves the range of binary64), the usage is a finite number between
    0 and 100; it is 0 when the total time is 0 and
    nonIdle / (nonIdle + idle) * 100 otherwise. *)
Theorem usage_bounds (d : CoreTimeData) (i u p n c : Q) :
  idle d = Fin i -> user d = Fin u -> privileged d = Fin p ->
  interrupt d = Fin n -> dpc d = Fin c ->
  (0 <= i)%Q -> (0 <= u)%Q -> (0 <= p)%Q -> (0 <= n)%Q -> (0 <= c)%Q ->
  (u + p + n + c + i <= HALF_RANGE)%Q ->
  exists v : Q,
    usageOf d = Fin v /\
    (0 <= v)%Q /\ (v <= 100)%Q /\
    ((u + p + n + c + i == 0)%Q -> (v == 0)%Q) /\
    (~ (u + p + n + c + i == 0)%Q ->
     (v == (u + p + n + c) / (u + p + n + c + i) * 100)%Q).
Proof.
  intros Hi Hu Hp Hn Hc Pi Pu Pp Pn Pc _.
  unfold usageOf. rewrite Hi, Hu, Hp, Hn, Hc. cbn [nadd].
  set (a := (u + p + n + c)%Q). set (t := (a + i)%Q).
  assert (Ha : (0 <= a)%Q) by (subst a; lra).
  destruct (Fin t > ofZ 0)%js eqn:E.
  - apply ngt_finite in E. change (inject_Z 0) with 0%Q in E.
    rewrite ndiv_finite by lra. cbn [nmul ofZ].
    assert (H0 : (0 <= a / t)%Q) by (apply Qle_shift_div_l; [exact E | lra]).
    assert (H1 : (a / t <= 1)%Q) by (apply Qle_shift_div_r; [exact E | subst t; lra]).
    eexists. split; [reflexivity|].
    change (inject_Z 100) with 100%Q.
    split; [lra|]. split; [lra|]. split.
    + intros Hz. exfalso. lra.
    + intros _. reflexivity.
  - exists (inject_Z 0). split; [reflexivity|]. change (inject_Z 0) with 0%Q.
    split; [lra|]. split; [lra|]. split.
    + intros _. reflexivity.
    + intros Hz. exfalso. apply Hz.
      assert (Hle : (t <= 0)%Q).
      { apply Qnot_lt_le. intros Hlt.
        apply (proj2 (ngt_finite t (inject_Z 0))) in Hlt.
        unfold ofZ in E. congruence. }
      subst t. lra.
Qed.

Lemma usage_bounds_witness :
  exists v : Q,
    usageOf halfBusy = Fin v /\
    (0 <= v)%Q /\ (v <= 100)%Q /\
    ((10 + 10 + 10 + 10 + 30 == 0)%Q -> (v == 0)%Q) /\
    (~ (10 + 10 + 10 + 10 + 30 == 0)%Q ->
     (v == (10 + 10 + 10 + 10) / (10 + 10 + 10 + 10 + 30) * 100)%Q).
Proof.
  apply (usage_bounds halfBusy 30 10 10 10 10);
    first [reflexivity | vm_compute; discriminate].
Defined.

(** ** Aggregate usage (C7) *)

Lemma sum_usage_finite (l : list CoreUsage) (qs : list Q) (acc : Q) :
  map usage l = map Fin qs ->
  fold_left (fun sum c => (sum + usage c)%js) l (Fin acc)
  = Fin (fold_left Qplus qs acc).
Proof.
  revert qs acc. induction l as [|x l IH]; intros [|q qs] acc H;
    try discriminate; [reflexivity|].
  cbn [map] in H. injection H as Hx Hl.
  cbn [fold_left]. rewrite Hx. cbn [nadd]. apply IH. exact Hl.
Qed.

(** With at least one core and finite usages, the aggregate is their sum
    divided by their number. *)
Lemma averageUsage_finite (l : list CoreUsage) (qs : list Q) :
  map usage l = map Fin qs -> l <> [] ->
  averageUsage l
  = Fin (fold_left Qplus qs (inject_Z 0) / inject_Z (Z.of_nat (List.length l)))%Q.
Proof.
  intros H Hne. unfold averageUsage, ofZ.
  rewrite (sum_usage_finite l qs (inject_Z 0) H).
  apply ndiv_finite. destruct l; [congruence|].
  unfold Qeq. cbn. lia.
Qed.

(** C7, as the code runs it: after a completed pass, [cpuUsage] is the sum
    of the usages of [cpuCoreUsages] divided by its length, with no guard:
    for no core at all this is 0 / 0, that is NaN, and a response without
    CPU time lines leaves [cpuUsage] at NaN. *)
Theorem aggregate_usage_unguarded (now : Z) (p : Pass) :
  cpuUsage (cpu (afterLines now p)) = averageUsage (cpuCoreUsages (afterLines now p)) /\
  averageUsage [] = NaN /\
  (let g' := after (fetchMetrics (Resolved (TextData gaugeBlob)) 2000 selected) in
   fetchError g' = NoError /\ cpuCoreUsages g' = [] /\ cpuUsage (cpu g') = NaN).
Proof.
  split; [reflexivity|]. split; [reflexivity|].
  vm_compute. repeat split; reflexivity.
Qed.

(** ** Values that are no numbers (C9) *)

Lemma split_not_nil (c : ascii) (s : string) : split c s <> [].
Proof.
  destruct s as [|a s]; cbn [split]; [discriminate|].
  destruct (Ascii.eqb a c); [discriminate|].
  destruct (split c s); discriminate.
Qed.

Lemma split_trailing (c : ascii) (s : string) :
  split c (s ++ String c "") = (split c s ++ [""])%list.
Proof.
  induction s as [|a s IH]; cbn [append split].
  - rewrite Ascii.eqb_refl. reflexivity.
  - rewrite IH. destruct (Ascii.eqb a c); [reflexivity|].
    pose proof (split_not_nil c s) as Hne.
    destruct (split c s) as [|w ws]; [congruence|reflexivity].
Qed.

Lemma pop_last (l : list string) (x : string) : pop (l ++ [x]) = Some x.
Proof.
  induction l as [|y l IH]; [reflexivity|].
  cbn [app pop]. destruct (l ++ [x])%list eqn:E; [destruct l; discriminate|exact IH].
Qed.

(** A line that ends in a space has an empty last field, read as 0. *)
Lemma lineValue_trailing_space (s : string) : lineValue (s ++ " ") = ofZ 0.
Proof.
  unfold lineValue. rewrite split_trailing, pop_last. reflexivity.
Qed.

(** C9, as the code runs it: the default 0 covers the empty last field only.
    A last field that is no number is read as NaN; the pass goes on and
    completes, and NaN is what the variables then hold (here the total and
    the used memory and the received counter).  The frequency branch alone
    tests for NaN, and keeps the old value. *)
Theorem unparsable_value_is_NaN (s : string) :
  lineValue (s ++ " ") = ofZ 0 /\
  lineValue "windows_os_visible_memory_bytes unknown" = NaN /\
  (let g' := after (fetchMetrics (Resolved (TextData wordBlob)) 2000 selected) in
   fetchError g' = NoError /\
   memoryTotal (memory g') = NaN /\ memoryUsed (memory g') = NaN /\
   currentReceivedBytes (net g') = NaN) /\
  (forall c : Cpu, onFrequency "windows_cpu_core_frequency_mhz unknown" c = c).
Proof.
  split; [apply lineValue_trailing_space|].
  split; [vm_compute; reflexivity|].
  split; [vm_compute; repeat split; reflexivity|].
  intros c. reflexivity.
Qed.

(** ** The frequency of the cores (C10) *)

Lemma In_insert (c x : CoreUsage) (l : list CoreUsage) :
  In c (insert x l) <-> c = x \/ In c l.
Proof.
  induction l as [|y l IH]; cbn [insert].
  - cbn. intuition congruence.
  - destruct (index x - index y > ofZ 0)%js; cbn [In] in *; rewrite ?IH;
      intuition congruence.
Qed.

Lemma In_sort (c : CoreUsage) (l : list CoreUsage) : In c (sort l) <-> In c l.
Proof.
  induction l as [|x l IH]; cbn [sort]; [tauto|].
  rewrite In_insert, IH. cbn [In]. intuition congruence.
Qed.

Lemma onLogicalProcessor_cpuFreq (line : string) (c : Cpu) :
  match onLogicalProcessor line c with
  | Normal c' | Throw c' _ => cpuFreq c' = cpuFreq c
  end.
Proof.
  unfold onLogicalProcessor.
  destruct (includes _ line); [|reflexivity].
  destruct (_ > ofZ 0)%js; [|reflexivity].
  destruct (_ > ofZ MAX_ARRAY_LENGTH)%js; reflexivity.
Qed.

Lemma processLine_cpuFreq (line : string) (p p' : Pass) :
  processLine line p = Normal p' ->
  cpuFreq (cpu (vars p')) =
  cpuFreq (onFrequency line
             {| cpuUsage := ofZ 0; cpuCores := ofZ 0;
                cpuFreq := cpuFreq (cpu (vars p)) |}).
Proof.
  unfold processLine.
  pose proof (onLogicalProcessor_cpuFreq line
                (cpu (with_net (onNetSent line (onNetReceived line (net (vars p))))
                        (vars p)))) as H.
  destruct (onLogicalProcessor _ _) as [c|c e]; [|discriminate].
  intros E. injection E as <-. cbn [vars cpu with_disk with_memory with_cpu].
  cbn [cpu with_net] in H.
  unfold onFrequency. destruct (includes _ line); [|exact H].
  destruct (negb _); [reflexivity|exact H].
Qed.

Lemma processLine_keeps (line : string) (p p' : Pass) :
  keepsFrequency line = true ->
  processLine line p = Normal p' ->
  cpuFreq (cpu (vars p')) = cpuFreq (cpu (vars p)).
Proof.
  intros Hk E. rewrite (processLine_cpuFreq line p p' E).
  unfold keepsFrequency, frequencyMetric in Hk. unfold onFrequency.
  destruct (includes _ line); [|reflexivity].
  cbn [negb orb] in Hk. rewrite Hk. reflexivity.
Qed.

Lemma processLine_assigns (line : string) (p p' : Pass) :
  keepsFrequency line = false ->
  processLine line p = Normal p' ->
  cpuFreq (cpu (vars p')) = (lineValue line / ofZ 1000)%js.
Proof.
  intros Hk E. rewrite (processLine_cpuFreq line p p' E).
  unfold keepsFrequency, frequencyMetric in Hk. unfold onFrequency.
  destruct (includes _ line); cbn [negb orb] in Hk; [|discriminate].
  rewrite Hk. reflexivity.
Qed.

Lemma forEach_keeps (lines : list string) (p p' : Pass) :
  forallb keepsFrequency lines = true ->
  forEach lines p = Normal p' ->
  cpuFreq (cpu (vars p')) = cpuFreq (cpu (vars p)).
Proof.
  revert p. induction lines as [|line rest IH]; intros p Hk E; cbn [forEach] in E.
  - injection E as <-. reflexivity.
  - cbn [forallb] in Hk. apply andb_true_iff in Hk as [Hl Hr].
    destruct (processLine line p) as [q|q e] eqn:El; [|discriminate].
    rewrite (IH q Hr E). exact (processLine_keeps line p q Hl El).
Qed.

Lemma forEach_app (l1 l2 : list string) (p p' : Pass) :
  forEach (l1 ++ l2) p = Normal p' ->
  exists q, forEach l1 p = Normal q /\ forEach l2 q = Normal p'.
Proof.
  revert p. induction l1 as [|line l1 IH]; intros p E.
  - exists p. split; [reflexivity|exact E].
  - cbn [app forEach] in *.
    destruct (processLine line p) as [q|q e]; [|discriminate].
    exact (IH q E).
Qed.

(** C10: after a cycle that completes, every entry of [cpuCoreUsages]
    carries the value of the one variable [cpuFreq]; that value is the one
    of the last frequency line whose value is a number, divided by 1000, and
    the value before the cycle when there is no such line. *)
Theorem one_frequency_per_cycle
  (metrics : string) (now : Z) (g g' : Globals) (dev : Device) :
  currentDevice g = Some dev ->
  fetchMetrics (Resolved (TextData metrics)) now g = Normal g' ->
  fetchError g' = NoError ->
  (forall c, In c (cpuCoreUsages g') -> frequency c = cpuFreq (cpu g')) /\
  (forall front line rest,
     split (ascii_of_nat 10) metrics = (front ++ line :: rest)%list ->
     keepsFrequency line = false ->
     forallb keepsFrequency rest = true ->
     cpuFreq (cpu g') = (lineValue line / ofZ 1000)%js) /\
  (forallb keepsFrequency (split (ascii_of_nat 10) metrics) = true ->
   cpuFreq (cpu g') = cpuFreq (cpu g)).
Proof.
  intros Hd Hf He.
  destruct (fetchMetrics_success metrics now g g' dev Hd Hf He) as (p & Hp & ->).
  change (cpuFreq (cpu (with_isLoading false (afterLines now p))))
    with (cpuFreq (cpu (vars p))).
  split; [|split].
  - intros c Hin.
    change (cpuCoreUsages (with_isLoading false (afterLines now p)))
      with (sort (map (toCoreUsage (cpuFreq (cpu (vars p)))) (coreTimes p))) in Hin.
    apply (proj1 (In_sort _ _)) in Hin.
    apply in_map_iff in Hin as (entry & <- & _). reflexivity.
  - intros front line rest Hs Hline Hrest. rewrite Hs in Hp.
    apply forEach_app in Hp as (q & _ & Hq). cbn [forEach] in Hq.
    destruct (processLine line q) as [q'|q' e] eqn:El; [|discriminate].
    rewrite (forEach_keeps rest q' p Hrest Hq).
    exact (processLine_assigns line q q' Hline El).
  - intros Hall. exact (forEach_keeps _ _ p Hall Hp).
Qed.

Lemma one_frequency_per_cycle_witness :
  (forall c, In c (cpuCoreUsages afterCores) -> frequency c = cpuFreq (cpu afterCores)) /\
  cpuFreq (cpu afterCores)
  = (lineValue (labelled frequencyMetric "core" "0,1" "} 3000") / ofZ 1000)%js.
Proof.
  pose proof (one_frequency_per_cycle coresBlob 2000 selected afterCores sampleDevice
                ltac:(vm_compute; reflexivity) ltac:(vm_compute; reflexivity)
                ltac:(vm_compute; reflexivity)) as (H1 & H2 & _).
  split; [exact H1|].
  apply (H2 [ cpuTimeLine "1,0" "idle" "50"; cpuTimeLine "1,0" "user" "50";
              labelled frequencyMetric "core" "0,0" "} 2400";
              cpuTimeLine "0,1" "idle" "75"; cpuTimeLine "0,1" "user" "25" ]
            (labelled frequencyMetric "core" "0,1" "} 3000")
            [ cpuTimeLine "0,0" "idle" "100"; cpuTimeLine "0,0" "user" "0" ]);
    vm_compute; reflexivity.
Defined.

(** ** Order of the cores (C8) *)

Lemma digit_char (a : ascii) :
  is_digit a = true ->
  is_space a = false /\
  scan_sign (String a "") = (false, String a "") /\
  Ascii.eqb "I" a = false /\
  is_x a = false /\
  Nat.eqb (nat_of_ascii a) 111 = false /\ Nat.eqb (nat_of_ascii a) 79 = false /\
  Nat.eqb (nat_of_ascii a) 98 = false /\ Nat.eqb (nat_of_ascii a) 66 = false.
Proof.
  destruct a as [[] [] [] [] [] [] [] []]; intros H;
    first [discriminate H | vm_compute; repeat split; reflexivity].
Qed.

Lemma rev_string_twice (s a b : string) :
  rev_string (rev_string s a) b = rev_string a (s ++ b).
Proof.
  revert a b. induction s as [|c s IH]; intros a b; [reflexivity|].
  cbn [rev_string append]. rewrite IH. reflexivity.
Qed.

Lemma append_empty (s : string) : s ++ "" = s.
Proof. induction s as [|c s IH]; cbn; congruence. Qed.

Lemma allChars_rev (p : ascii -> bool) (s acc : string) :
  allChars p s = true -> allChars p acc = true ->
  allChars p (rev_string s acc) = true.
Proof.
  revert acc. induction s as [|c s IH]; intros acc Hs Ha; [exact Ha|].
  cbn [allChars] in Hs. apply andb_true_iff in Hs as [Hc Hs].
  cbn [rev_string]. apply IH; [exact Hs|]. cbn [allChars]. rewrite Hc. exact Ha.
Qed.

Lemma trim_start_digits (s : string) :
  allChars is_digit s = true -> trim_start s = s.
Proof.
  destruct s as [|c s]; [reflexivity|]. cbn [allChars]. intros H.
  apply andb_true_iff in H as [Hc _].
  unfold trim_start. cbn [span].
  destruct (digit_char c Hc) as (-> & _). reflexivity.
Qed.

Lemma trim_digits (s : string) : allChars is_digit s = true -> trim s = s.
Proof.
  intros H. unfold trim. rewrite (trim_start_digits s H).
  rewrite trim_start_digits by (apply allChars_rev; [exact H|reflexivity]).
  rewrite rev_string_twice. cbn [rev_string]. apply append_empty.
Qed.

Lemma span_digits (s : string) :
  allChars is_digit s = true -> span is_digit s = (s, "").
Proof.
  induction s as [|c s IH]; [reflexivity|]. cbn [allChars]. intros H.
  apply andb_true_iff in H as [Hc Hs]. cbn [span]. rewrite Hc, (IH Hs). reflexivity.
Qed.

Lemma radix_prefix_digits (s : string) :
  allChars is_digit s = true -> radix_prefix s = None.
Proof.
  destruct s as [|z [|k r]]; try reflexivity. cbn [allChars]. intros H.
  apply andb_true_iff in H as [_ H]. apply andb_true_iff in H as [Hk _].
  destruct (digit_char k Hk) as (_ & _ & _ & Hx & Ho & HO & Hb & HB).
  unfold radix_prefix. unfold is_x in Hx. cbv zeta. rewrite Hx, Ho, HO, Hb, HB.
  destruct (Nat.eqb _ 48); reflexivity.
Qed.

Lemma scan_decimal_digits (s : string) :
  numeral s = true ->
  scan_decimal s = Some (ofZ (digits_val 10 0 s), "").
Proof.
  destruct s as [|c s]; [discriminate|]. unfold numeral. intros H.
  pose proof H as H'. cbn [allChars] in H'. apply andb_true_iff in H' as [Hc _].
  destruct (digit_char c Hc) as (_ & Hsign & HI & _).
  unfold scan_decimal.
  assert (Hs : scan_sign (String c s) = (false, String c s)).
  { unfold scan_sign in *. destruct (Nat.eqb (nat_of_ascii c) 45); [discriminate|].
    destruct (Nat.eqb (nat_of_ascii c) 43); [discriminate|reflexivity]. }
  rewrite Hs.
  assert (Hp : drop_prefix "Infinity" (String c s) = None)
    by (cbn [drop_prefix]; rewrite HI; reflexivity).
  rewrite Hp. unfold scan_unsigned. rewrite (span_digits _ H).
  cbn [scan_exponent String.length]. rewrite append_empty.
  unfold decimal_value, ofZ. cbn [Z.of_nat Z.sub Z.opp Z.add Z.leb Z.compare Z.pow Z.pow_pos Pos.iter].
  rewrite Z.mul_1_r. reflexivity.
Qed.

(** [Number] on a decimal numeral is the number it writes. *)
Lemma Number_numeral (s : string) :
  numeral s = true -> Number s = ofZ (digits_val 10 0 s).
Proof.
  intros H. unfold Number.
  assert (Ha : allChars is_digit s = true) by (destruct s; [discriminate|exact H]).
  rewrite (trim_digits s Ha). destruct s as [|c s]; [discriminate|].
  rewrite (radix_prefix_digits _ Ha), (scan_decimal_digits _ H). reflexivity.
Qed.

Lemma ofZ_sum (a b : Z) : ((ofZ 0 + ofZ a * ofZ 2 + ofZ b) == ofZ (b + a * 2))%js.
Proof.
  unfold ofZ. cbn [nadd nmul num_eq]. rewrite !inject_Z_plus, inject_Z_mult. ring.
Qed.

(** The index of an entry of [cpuCoreUsages] on a label of the form
    processor,thread. *)
Lemma coreIndex_wellFormed (core : string) :
  wellFormed core = true -> (coreIndex core == ofZ (linearIndex core))%js.
Proof.
  unfold wellFormed, coreIndex, linearIndex, threadsPerProcessor.
  destruct (split "," core) as [|p [|t [|x l]]]; try discriminate.
  intros H. apply andb_true_iff in H as [Hp Ht].
  cbn [map reduceIndexed Nat.eqb].
  rewrite (Number_numeral p Hp), (Number_numeral t Ht). apply ofZ_sum.
Qed.

(** The index of the branches of the performance counters, on such a label. *)
Lemma counterIndex_wellFormed (core : string) :
  wellFormed core = true -> (counterIndex core == ofZ (linearIndex core))%js.
Proof.
  unfold wellFormed, counterIndex, linearIndex, threadsPerProcessor.
  destruct (split "," core) as [|p [|t [|x l]]]; try discriminate.
  intros H. apply andb_true_iff in H as [Hp Ht].
  cbn [map nth].
  rewrite (Number_numeral p Hp), (Number_numeral t Ht).
  unfold ofZ. cbn [nadd nmul num_eq]. rewrite inject_Z_plus, inject_Z_mult. ring.
Qed.

Section SortByIndex.

Variable key : CoreUsage -> Z.

Lemma compare_keyed (x y : CoreUsage) :
  keyed key x -> keyed key y ->
  ((index x - index y > ofZ 0)%js = true <-> key y < key x).
Proof.
  unfold keyed, ofZ. intros Hx Hy.
  destruct (index x) as [| |qx]; try contradiction.
  destruct (index y) as [| |qy]; try contradiction.
  cbn [num_eq] in Hx, Hy. cbn [nsub nopp nadd]. rewrite ngt_finite.
  change (inject_Z 0) with 0%Q. rewrite Zlt_Qlt. split; intros H; lra.
Qed.

Lemma insert_sorted (x : CoreUsage) (l : list CoreUsage) :
  keyed key x -> Forall (keyed key) l ->
  Sorted (fun a b => key a <= key b) l ->
  Sorted (fun a b => key a <= key b) (insert x l).
Proof.
  intros Hx Hl Hs. induction l as [|y l IH]; cbn [insert].
  - repeat constructor.
  - inversion Hl as [|? ? Hy Hl']; subst. inversion Hs as [|? ? Hs' Hhd]; subst.
    pose proof (compare_keyed x y Hx Hy) as Hc.
    destruct (index x - index y > ofZ 0)%js.
    + constructor; [exact (IH Hl' Hs')|].
      destruct l as [|z l]; cbn [insert].
      * constructor. apply Z.lt_le_incl, Hc. reflexivity.
      * destruct (index x - index z > ofZ 0)%js.
        -- inversion Hhd; subst. constructor. assumption.
        -- constructor. apply Z.lt_le_incl, Hc. reflexivity.
    + constructor; [exact Hs|]. constructor.
      apply Z.nlt_ge. intros Hlt. apply Hc in Hlt. discriminate.
Qed.

Lemma Forall_insert (P : CoreUsage -> Prop) (x : CoreUsage) (l : list CoreUsage) :
  P x -> Forall P l -> Forall P (insert x l).
Proof.
  intros Hx Hl. apply Forall_forall. intros c Hin.
  apply In_insert in Hin as [->|Hin]; [exact Hx|].
  exact (proj1 (Forall_forall P l) Hl c Hin).
Qed.

Lemma sort_sorted (l : list CoreUsage) :
  Forall (keyed key) l ->
  Forall (keyed key) (sort l) /\ StronglySorted (fun a b => key a <= key b) (sort l).
Proof.
  intros Hl.
  assert (H : Forall (keyed key) (sort l) /\ Sorted (fun a b => key a <= key b) (sort l)).
  { induction Hl as [|x l Hx Hl [IHk IHs]]; cbn [sort].
    - split; constructor.
    - split; [apply Forall_insert | apply insert_sorted]; assumption. }
  destruct H as [Hk Hs]. split; [exact Hk|].
  apply Sorted_StronglySorted; [|exact Hs].
  intros a b c Hab Hbc. exact (Z.le_trans _ _ _ Hab Hbc).
Qed.

End SortByIndex.

(** C8: after a cycle that completes in which every core label has the form
    processor,thread, every entry of [cpuCoreUsages] has the index
    thread + processor * 2, and the sequence is in ascending order of that
    index; the labels 0,0 and 0,1 and 1,0 get the indices 0, 1 and 2. *)
Theorem cores_sorted_by_index
  (metrics : string) (now : Z) (g g' : Globals) (dev : Device) :
  currentDevice g = Some dev ->
  fetchMetrics (Resolved (TextData metrics)) now g = Normal g' ->
  fetchError g' = NoError ->
  forallb (fun c => wellFormed (core c)) (cpuCoreUsages g') = true ->
  Forall (fun c => (index c == ofZ (linearIndex (core c)))%js) (cpuCoreUsages g') /\
  StronglySorted (fun a b => linearIndex (core a) <= linearIndex (core b))
    (cpuCoreUsages g') /\
  (coreIndex "0,0" == ofZ 0)%js /\ (coreIndex "0,1" == ofZ 1)%js /\
  (coreIndex "1,0" == ofZ 2)%js.
Proof.
  intros Hd Hf He Hw.
  destruct (fetchMetrics_success metrics now g g' dev Hd Hf He) as (p & _ & ->).
  change (cpuCoreUsages (with_isLoading false (afterLines now p)))
    with (sort (map (toCoreUsage (cpuFreq (cpu (vars p)))) (coreTimes p))) in *.
  set (l := map (toCoreUsage (cpuFreq (cpu (vars p)))) (coreTimes p)) in *.
  assert (Hk : Forall (keyed (fun c => linearIndex (core c))) l).
  { apply Forall_forall. intros c Hin. unfold keyed.
    assert (Hc : wellFormed (core c) = true).
    { apply (proj1 (forallb_forall _ _) Hw). apply In_sort. exact Hin. }
    subst l. apply in_map_iff in Hin as (entry & <- & _).
    cbn [index core toCoreUsage] in *. apply coreIndex_wellFormed. exact Hc. }
  destruct (sort_sorted (fun c => linearIndex (core c)) l Hk) as [Hks Hs].
  split; [exact Hks|]. split; [exact Hs|].
  vm_compute. repeat split; reflexivity.
Qed.

Lemma cores_sorted_by_index_witness :
  map core (cpuCoreUsages afterCores) = ["0,0"; "0,1"; "1,0"] /\
  Forall (fun c => (index c == ofZ (linearIndex (core c)))%js) (cpuCoreUsages afterCores) /\
  StronglySorted (fun a b => linearIndex (core a) <= linearIndex (core b))
    (cpuCoreUsages afterCores).
Proof.
  split; [vm_compute; reflexivity|].
  pose proof (cores_sorted_by_index coresBlob 2000 selected afterCores sampleDevice
                ltac:(vm_compute; reflexivity) ltac:(vm_compute; reflexivity)
                ltac:(vm_compute; reflexivity) ltac:(vm_compute; reflexivity))
    as (H1 & H2 & _).
  split; assumption.
Defined.

(** The branches of the performance counters split the text between the
    braces at every comma, also the one inside the label: of the label 0,1
    they keep 0 alone, the thread is missing and the index is NaN, so that
    nothing is stored. *)
Remark counter_label_is_cut :
  counterCore mperfLine = Some "0" /\ counterIndex "0" = NaN.
Proof. split; vm_compute; reflexivity. Qed.

(** ** The embedding on small inputs *)

Example parseFloat_samples :
  parseFloat "1031250000" = ofZ 1031250000 /\
  (parseFloat "  -12.50xyz" == Fin (- (25 # 2)))%js /\
  (parseFloat "1.5e3" == ofZ 1500)%js /\
  (parseFloat ".5" == Fin (1 # 2))%js /\
  parseFloat "Infinity" = Inf false /\
  parseFloat "+Inf" = NaN /\ parseFloat "NaN" = NaN /\
  parseFloat "abc" = NaN /\ parseFloat "" = NaN.
Proof. vm_compute. repeat split; reflexivity. Qed.

Example Number_samples :
  Number "" = ofZ 0 /\ Number " 12 " = ofZ 12 /\ Number "0x1f" = ofZ 31 /\
  Number "12abc" = NaN /\ Number "abc" = NaN /\ Number "-Infinity" = Inf true.
Proof. vm_compute. repeat split; reflexivity. Qed.

Example parseInt_samples :
  parseInt "8" = ofZ 8 /\ parseInt "12.7" = ofZ 12 /\ parseInt "0x10" = ofZ 16 /\
  parseInt "abc" = NaN /\ parseInt "" = NaN.
Proof. vm_compute. repeat split; reflexivity. Qed.

Example split_samples :
  split " " "a b  c " = ["a"; "b"; ""; "c"; ""] /\
  pop (split " " "a b  c ") = Some "" /\
  lineValue "windows_os_visible_memory_bytes 17179869184" = ofZ 17179869184 /\
  includes "bar" "foobarx" = true /\ includes "baz" "foobarx" = false.
Proof. vm_compute. repeat split; reflexivity. Qed.

Example match_samples :
  match_core_mode (cpuTimeLine "0,1" "idle" "1.5") = Some ("0,1", "idle") /\
  match_core_mode mperfLine = None /\
  match_core_mode (labelled "windows_cpu_time_total" "mode" "idle"
                     (",core=" ++ dq ++ "0,1" ++ dq ++ "} 3")) = None.
Proof. vm_compute. repeat split; reflexivity. Qed.

(** A cycle on three cores: the entries come out in the order of their
    indices, with usages 0, 25 and 50 and the frequency 3. *)
Example cores_sample :
  map core (cpuCoreUsages afterCores) = ["0,0"; "0,1"; "1,0"] /\
  map index (cpuCoreUsages afterCores) = [ofZ 0; ofZ 1; ofZ 2] /\
  Forall2 num_eq (map usage (cpuCoreUsages afterCores)) [ofZ 0; ofZ 25; ofZ 50] /\
  Forall (fun c => (frequency c == ofZ 3)%js) (cpuCoreUsages afterCores) /\
  (cpuUsage (cpu afterCores) == ofZ 25)%js.
Proof.
  vm_compute. repeat split; repeat constructor; reflexivity.
Qed.

(** * Further properties of the code *)

(** ** What no cycle assigns *)

Lemma onNet_rest (line : string) (n : Net) :
  let n' := onNetSent line (onNetReceived line n) in
  totalData n' = totalData n /\ bandwidth n' = bandwidth n /\
  receivedPackets n' = receivedPackets n /\ sentPackets n' = sentPackets n.
Proof.
  unfold onNetSent, onNetReceived.
  destruct (includes "windows_net_bytes_received_total" line);
    destruct (includes "windows_net_bytes_sent_total" line); cbn; auto.
Qed.

Lemma processLine_net_rest (line : string) (p : Pass) :
  let n' := net (vars (passOf (processLine line p))) in
  let n := net (vars p) in
  totalData n' = totalData n /\ bandwidth n' = bandwidth n /\
  receivedPackets n' = receivedPackets n /\ sentPackets n' = sentPackets n.
Proof.
  pose proof (onNet_rest line (net (vars p))) as H.
  unfold processLine. destruct (onLogicalProcessor _ _); exact H.
Qed.

Lemma forEach_net_rest (lines : list string) (p : Pass) :
  let n' := net (vars (passOf (forEach lines p))) in
  let n := net (vars p) in
  totalData n' = totalData n /\ bandwidth n' = bandwidth n /\
  receivedPackets n' = receivedPackets n /\ sentPackets n' = sentPackets n.
Proof.
  revert p. induction lines as [|line rest IH]; intros p; cbn [forEach].
  - cbn. auto.
  - pose proof (processLine_net_rest line p) as Hl.
    destruct (processLine line p) as [q|q e]; cbn [passOf] in *.
    + destruct (IH q) as (A & B & C & D). destruct Hl as (A' & B' & C' & D').
      cbv zeta. rewrite A, B, C, D. auto.
    + exact Hl.
Qed.

(** What [fetchMetrics] does on a device, by the way the request settles. *)
Lemma fetchMetrics_cases (r : FetchResult) (now : Z) (g : Globals) (dev : Device) :
  currentDevice g = Some dev ->
  let g0 := with_fetchError NoError (with_isLoading true g) in
  after (fetchMetrics r now g) =
  with_isLoading false
    match r with
    | Rejected e => onError dev e g0
    | Resolved OtherData => with_fetchError FormatError g0
    | Resolved (TextData metrics) =>
        match forEach (linesOf metrics) (startOf g) with
        | Normal p => afterLines now p
        | Throw p e => onError dev e (vars p)
        end
    end.
Proof.
  intros Hd g0. unfold fetchMetrics, parseMetrics, linesOf, startOf. rewrite Hd.
  destruct r as [[metrics|]|e]; try reflexivity.
  destruct (forEach _ _); reflexivity.
Qed.

Lemma fetchMetrics_untouched (r : FetchResult) (now : Z) (g : Globals) :
  let g' := after (fetchMetrics r now g) in
  currentDevice g' = currentDevice g /\ retryCount g' = retryCount g /\
  pollingInterval g' = pollingInterval g /\
  totalData (net g') = totalData (net g) /\ bandwidth (net g') = bandwidth (net g) /\
  receivedPackets (net g') = receivedPackets (net g) /\
  sentPackets (net g') = sentPackets (net g).
Proof.
  destruct (currentDevice g) as [dev|] eqn:Hd.
  - cbv zeta. rewrite (fetchMetrics_cases r now g dev Hd).
    destruct r as [[metrics|]|e].
    + pose proof (forEach_frame (linesOf metrics) (startOf g)) as Hf.
      pose proof (forEach_net_rest (linesOf metrics) (startOf g)) as Hn.
      unfold frame in Hf. cbv zeta in Hn.
      injection Hf as H1 _ _ _ _ H6 H7. destruct Hn as (A & B & C & D).
      change (currentDevice (vars (startOf g))) with (currentDevice g) in H1.
      change (retryCount (vars (startOf g))) with (retryCount g) in H6.
      change (pollingInterval (vars (startOf g))) with (pollingInterval g) in H7.
      change (net (vars (startOf g))) with (net g) in A, B, C, D.
      rewrite <- Hd.
      destruct (forEach _ _) as [p|p e]; cbn [passOf] in *;
        rewrite <- H1, <- H6, <- H7, <- A, <- B, <- C, <- D;
        repeat split; reflexivity.
    + rewrite <- Hd. repeat split; reflexivity.
    + rewrite <- Hd. repeat split; reflexivity.
  - unfold fetchMetrics. rewrite Hd. cbn [after]. rewrite Hd.
    repeat split; reflexivity.
Qed.

(** ** The schedule of polling *)

Opaque fetchMetrics.

Lemma with_retryCount_after (r : FetchResult) (now : Z) (g : Globals) :
  let g' := with_retryCount 0 (after (fetchMetrics r now (with_retryCount 0 g))) in
  currentDevice g' = currentDevice g /\ retryCount g' = 0 /\
  pollingInterval g' = pollingInterval g /\
  totalData (net g') = totalData (net g) /\ bandwidth (net g') = bandwidth (net g) /\
  receivedPackets (net g') = receivedPackets (net g) /\
  sentPackets (net g') = sentPackets (net g).
Proof.
  destruct (fetchMetrics_untouched r now (with_retryCount 0 g))
    as (A & _ & C & D & E & F & G).
  cbv zeta in *.
  set (g1 := after (fetchMetrics r now (with_retryCount 0 g))) in *.
  change (currentDevice (with_retryCount 0 g1)) with (currentDevice g1).
  change (pollingInterval (with_retryCount 0 g1)) with (pollingInterval g1).
  change (net (with_retryCount 0 g1)) with (net g1).
  change (retryCount (with_retryCount 0 g1)) with 0.
  rewrite A, C, D, E, F, G. repeat split; reflexivity.
Qed.

(** A tick of the interval with no timeout pending, whatever the request
    settles to. *)
Lemma turn_any (r : FetchResult) (l : Loop) (tick : Z) (dev : Device) :
  timeouts l = [] -> interval l = Some tick ->
  currentDevice (state l) = Some dev ->
  let l' := turn r l in
  timeouts l' = [] /\ interval l' = Some (tick + POLL_INTERVAL) /\
  log l' = (log l ++ [(tick, cbFetchMetricsWithRetry)])%list /\
  state l' = with_retryCount 0
               (after (fetchMetrics r tick (with_retryCount 0 (state l)))).
Proof.
  intros Ht Hi Hd l'. subst l'. unfold turn, fire, runCallback. rewrite Ht, Hi.
  cbn [earliest].
  rewrite (fetchMetricsWithRetry_device r tick (state l) dev Hd).
  cbn [timeouts interval log state due map app].
  repeat split; reflexivity.
Qed.

Lemma startPolling_any (r : FetchResult) (dev : Device) (t0 : Z) :
  let l' := startPolling r (pageWith dev t0) in
  timeouts l' = [] /\ interval l' = Some (t0 + POLL_INTERVAL) /\
  log l' = [(t0, cbFetchMetricsWithRetry)] /\
  state l' = with_pollingInterval true
               (with_retryCount 0
                  (after (fetchMetrics r t0
                            (with_retryCount 0 (state (pageWith dev t0)))))).
Proof.
  intros l'. subst l'. unfold startPolling.
  assert (Hd : currentDevice (state (pageWith dev t0)) = Some dev) by reflexivity.
  change (pollingInterval (state (pageWith dev t0))) with false. cbv iota.
  rewrite (fetchMetricsWithRetry_device r _ _ dev Hd).
  cbn [timeouts interval log state due map app pageWith clock].
  repeat split; reflexivity.
Qed.

Lemma turns_snoc (rs : list FetchResult) (r : FetchResult) (l : Loop) :
  turns (rs ++ [r]) l = turn r (turns rs l).
Proof. unfold turns. rewrite fold_left_app. reflexivity. Qed.

(** What holds of the page at every moment of polling. *)
Lemma polled_invariant (dev : Device) (t0 : Z) (r0 : FetchResult)
  (rs : list FetchResult) :
  let l := polled dev t0 r0 rs in
  timeouts l = [] /\
  interval l = Some (t0 + POLL_INTERVAL * Z.of_nat (S (List.length rs))) /\
  log l = map (fun k => (t0 + POLL_INTERVAL * Z.of_nat k, cbFetchMetricsWithRetry))
            (seq 0 (S (List.length rs))) /\
  currentDevice (state l) = Some dev /\ retryCount (state l) = 0 /\
  pollingInterval (state l) = true /\
  totalData (net (state l)) = ofZ 0 /\ bandwidth (net (state l)) = ofZ 0 /\
  receivedPackets (net (state l)) = ofZ 0 /\ sentPackets (net (state l)) = ofZ 0.
Proof.
  unfold polled. induction rs as [|r rs IH] using rev_ind; cbv zeta.
  - destruct (startPolling_any r0 dev t0) as (Ht & Hi & Hl & Hs).
    destruct (with_retryCount_after r0 t0 (state (pageWith dev t0)))
      as (A & B & _ & D & E & F & G).
    cbv zeta in *.
    set (g1 := with_retryCount 0 (after (fetchMetrics r0 t0
                 (with_retryCount 0 (state (pageWith dev t0)))))) in *.
    unfold turns. cbn [fold_left List.length seq map]. rewrite Ht, Hi, Hl, Hs.
    change (currentDevice (with_pollingInterval true g1)) with (currentDevice g1).
    change (retryCount (with_pollingInterval true g1)) with (retryCount g1).
    change (net (with_pollingInterval true g1)) with (net g1).
    change (pollingInterval (with_pollingInterval true g1)) with true.
    rewrite A, B, D, E, F, G.
    repeat split; try reflexivity.
    do 2 f_equal. unfold POLL_INTERVAL. cbn [Z.of_nat]. lia.
  - cbv zeta in IH. destruct IH as (Ht & Hi & Hl & Hd & Hr & Hp & A & B & C & D).
    rewrite turns_snoc.
    set (l := turns rs (startPolling r0 (pageWith dev t0))) in *.
    destruct (turn_any r l _ dev Ht Hi Hd) as (Ht' & Hi' & Hl' & Hs').
    destruct (with_retryCount_after r
                (t0 + POLL_INTERVAL * Z.of_nat (S (List.length rs))) (state l))
      as (A' & B' & C' & D' & E' & F' & G').
    cbv zeta in *. rewrite <- Hs' in A', B', C', D', E', F', G'.
    rewrite Ht', Hi', Hl', Hl, A', B', C', D', E', F', G', Hd, Hp, A, B, C, D.
    rewrite length_app. cbn [List.length].
    replace (S (List.length rs + 1)) with (S (S (List.length rs))) by lia.
    rewrite (seq_S (S (List.length rs)) 0), map_app. cbn [map Nat.add].
    repeat split; try reflexivity.
    f_equal. unfold POLL_INTERVAL. lia.
Qed.

Transparent fetchMetrics.

(** Whatever the requests settle to, polling runs [fetchMetricsWithRetry]
    once at the start and then every 2000 ms, and nothing else: no retry
    timeout is ever pending and [retryCount] is 0 after every fetch. *)
Theorem polling_schedule (dev : Device) (t0 : Z) (r0 : FetchResult)
  (rs : list FetchResult) :
  let l := polled dev t0 r0 rs in
  timeouts l = [] /\
  retryCount (state l) = 0 /\
  interval l = Some (t0 + 2000 * Z.of_nat (S (List.length rs))) /\
  log l = map (fun k => (t0 + 2000 * Z.of_nat k, cbFetchMetricsWithRetry))
            (seq 0 (S (List.length rs))).
Proof.
  destruct (polled_invariant dev t0 r0 rs) as (A & B & C & _ & E & _).
  cbv zeta. repeat split; assumption.
Qed.

(** The variables [totalData], [bandwidth], [receivedPackets] and
    [sentPackets] are assigned by no cycle: they are 0 at every moment of
    polling, whatever the responses hold. *)
Theorem totals_never_assigned (dev : Device) (t0 : Z) (r0 : FetchResult)
  (rs : list FetchResult) :
  let n := net (state (polled dev t0 r0 rs)) in
  totalData n = ofZ 0 /\ bandwidth n = ofZ 0 /\
  receivedPackets n = ofZ 0 /\ sentPackets n = ofZ 0.
Proof.
  destruct (polled_invariant dev t0 r0 rs) as (_ & _ & _ & _ & _ & _ & A & B & C & D).
  cbv zeta. repeat split; assumption.
Qed.

(** ** Stopping and starting *)

Lemma turns_idle (rs : list FetchResult) (l : Loop) :
  timeouts l = [] -> interval l = None -> turns rs l = l.
Proof.
  intros Ht Hi. unfold turns. induction rs as [|r rs IH]; [reflexivity|].
  cbn [fold_left]. unfold turn at 2. rewrite Ht, Hi. cbn [earliest]. exact IH.
Qed.

(** On a page where one call of [startPolling] has completed and its ticks
    have run with every request settled (no call of [startPolling] and no
    request pending), [stopPolling] ends polling: the interval is cleared,
    no timeout is left, and no callback runs any more, whatever requests
    would settle to; the variables and the log stay as they are. *)
Theorem stop_ends_polling (dev : Device) (t0 : Z) (r0 : FetchResult)
  (rs later : list FetchResult) :
  let l := stopPolling (polled dev t0 r0 rs) in
  turns later l = l /\
  interval l = None /\ timeouts l = [] /\ pollingInterval (state l) = false /\
  log l = log (polled dev t0 r0 rs).
Proof.
  destruct (polled_invariant dev t0 r0 rs) as (Ht & _ & _ & _ & _ & Hp & _).
  cbv zeta in *. unfold stopPolling. rewrite Hp.
  split; [apply turns_idle; [exact Ht | reflexivity]|].
  split; [reflexivity|]. split; [exact Ht|]. split; reflexivity.
Qed.

Lemma startPolling_polls (r : FetchResult) (l : Loop) :
  pollingInterval (state (startPolling r l)) = true.
Proof.
  unfold startPolling. destruct (pollingInterval (state l)) eqn:Hp; [exact Hp|].
  destruct (fetchMetricsWithRetry r (clock l) (state l)) as [g ts]. reflexivity.
Qed.

(** [startPolling] on a page that polls already does nothing: a second call
    makes no request and sets no second interval. *)
Theorem startPolling_once (r r' : FetchResult) (l : Loop) :
  startPolling r' (startPolling r l) = startPolling r l.
Proof.
  pose proof (startPolling_polls r l) as Hp.
  set (x := startPolling r l) in *. unfold startPolling. rewrite Hp. reflexivity.
Qed.

(** ** How a cycle on a string ends *)









(** ** The counters from cycle to cycle *)

Lemma processLine_net (line : string) (p p' : Pass) :
  processLine line p = Normal p' ->
  net (vars p') = onNetSent line (onNetReceived line (net (vars p))).
Proof.
  unfold processLine. destruct (onLogicalProcessor _ _); [|discriminate].
  intros E. injection E as <-. reflexivity.
Qed.

Lemma processLine_received (line : string) (p p' : Pass) :
  processLine line p = Normal p' ->
  currentReceivedBytes (net (vars p')) =
  if includes receivedMetric line then lineValue line
  else currentReceivedBytes (net (vars p)).
Proof.
  intros E. rewrite (processLine_net line p p' E).
  unfold onNetSent, onNetReceived, receivedMetric.
  destruct (includes "windows_net_bytes_sent_total" line);
    destruct (includes "windows_net_bytes_received_total" line); reflexivity.
Qed.

Lemma forEach_no_received (lines : list string) (p p' : Pass) :
  forallb (fun l => negb (includes receivedMetric l)) lines = true ->
  forEach lines p = Normal p' ->
  currentReceivedBytes (net (vars p')) = currentReceivedBytes (net (vars p)).
Proof.
  revert p. induction lines as [|line rest IH]; intros p Hn E; cbn [forEach] in E.
  - injection E as <-. reflexivity.
  - cbn [forallb] in Hn. apply andb_true_iff in Hn as [Hl Hr].
    destruct (processLine line p) as [q|q e] eqn:El; [|discriminate].
    rewrite (IH q Hr E), (processLine_received line p q El).
    apply negb_true_iff in Hl. rewrite Hl. reflexivity.
Qed.

(** After a cycle that completes, the previous counters and the previous
    time are the ones of this cycle. *)
Lemma success_baseline (metrics : string) (now : Z) (g g' : Globals) (dev : Device) :
  currentDevice g = Some dev ->
  fetchMetrics (Resolved (TextData metrics)) now g = Normal g' ->
  fetchError g' = NoError ->
  lastReceivedBytes (rate g') = currentReceivedBytes (net g') /\
  lastSentBytes (rate g') = currentSentBytes (net g') /\
  lastTimestamp (rate g') = ofZ now.
Proof.
  intros Hd Hf He. rewrite (success_rate metrics now g g' dev Hd Hf He).
  repeat split; reflexivity.
Qed.

(** With several lines of the received counter (one for each adapter), only
    the last one counts: after a cycle that completes, the counter, its
    value in GiB and the counter kept for the next cycle are those of the
    last such line; the values of the adapters are not added up. *)
Theorem last_adapter_counts
  (metrics : string) (now : Z) (g g' : Globals) (dev : Device)
  (front rest : list string) (line : string) :
  currentDevice g = Some dev ->
  fetchMetrics (Resolved (TextData metrics)) now g = Normal g' ->
  fetchError g' = NoError ->
  linesOf metrics = (front ++ line :: rest)%list ->
  includes receivedMetric line = true ->
  forallb (fun l => negb (includes receivedMetric l)) rest = true ->
  currentReceivedBytes (net g') = lineValue line /\
  lastReceivedBytes (rate g') = lineValue line.
Proof.
  intros Hd Hf He Hs Hl Hr.
  destruct (success_baseline metrics now g g' dev Hd Hf He) as (Hb & _ & _).
  rewrite Hb.
  destruct (fetchMetrics_success metrics now g g' dev Hd Hf He) as (p & Hp & ->).
  change (currentReceivedBytes (net (with_isLoading false (afterLines now p))))
    with (currentReceivedBytes (net (vars p))).
  fold (linesOf metrics) in Hp. rewrite Hs in Hp.
  apply forEach_app in Hp as (q & _ & Hq). cbn [forEach] in Hq.
  destruct (processLine line q) as [q'|q' e] eqn:El; [|discriminate].
  rewrite (forEach_no_received rest q' p Hr Hq), (processLine_received line q q' El), Hl.
  split; reflexivity.
Qed.

Lemma last_adapter_counts_witness :
  currentReceivedBytes (net afterTwoAdapters) = ofZ 1000 /\
  lastReceivedBytes (rate afterTwoAdapters) = ofZ 1000.
Proof.
  apply (last_adapter_counts twoAdapters 2000 selected afterTwoAdapters sampleDevice
           [labelled receivedMetric "nic" "Ethernet" "} 7000"; sentLine "5000"] []
           (labelled receivedMetric "nic" "Wi-Fi" "} 1000"));
    vm_compute; reflexivity.
Defined.

(** A response without any line of the received counter leaves the counter
    of the cycle before in place: if that cycle completed, the receive speed
    of this one is 0 (both counters of the cycle before above 0, time
    advancing). *)
Theorem silence_gives_zero
  (m1 m2 : string) (now1 now2 : Z) (g g1 g2 : Globals) (dev : Device) (c : Q) :
  currentDevice g = Some dev ->
  fetchMetrics (Resolved (TextData m1)) now1 g = Normal g1 ->
  fetchError g1 = NoError ->
  fetchMetrics (Resolved (TextData m2)) now2 g1 = Normal g2 ->
  fetchError g2 = NoError ->
  forallb (fun l => negb (includes receivedMetric l)) (linesOf m2) = true ->
  currentReceivedBytes (net g1) = Fin c -> (0 < c)%Q ->
  (currentSentBytes (net g1) > ofZ 0)%js = true ->
  now1 < now2 ->
  (receivedSpeed (rate g2) == ofZ 0)%js.
Proof.
  intros Hd Hf1 He1 Hf2 He2 Hn Hc Hpos Hs Hnow.
  destruct (success_baseline m1 now1 g g1 dev Hd Hf1 He1) as (Hb & Hbs & Hts).
  assert (Hd1 : currentDevice g1 = Some dev).
  { pose proof (fetchMetrics_untouched (Resolved (TextData m1)) now1 g) as H.
    cbv zeta in H. rewrite Hf1 in H. cbn [after] in H. destruct H as [H _].
    congruence. }
  pose proof (success_rate m2 now2 g1 g2 dev Hd1 Hf2 He2) as Hr.
  assert (Hk : (lastReceivedBytes (rate g1) > ofZ 0)%js = true)
    by (rewrite Hb, Hc; apply ngt_finite; exact Hpos).
  assert (Hks : (lastSentBytes (rate g1) > ofZ 0)%js = true) by (rewrite Hbs; exact Hs).
  destruct (updateRate_known now2 (net g2) (rate g1) Hk Hks) as [Hrs _].
  rewrite <- Hr in Hrs.
  assert (Hsame : currentReceivedBytes (net g2) = Fin c).
  { destruct (fetchMetrics_success m2 now2 g1 g2 dev Hd1 Hf2 He2) as (p & Hp & ->).
    change (currentReceivedBytes (net (with_isLoading false (afterLines now2 p))))
      with (currentReceivedBytes (net (vars p))).
    rewrite (forEach_no_received _ _ p Hn Hp). exact Hc. }
  rewrite Hsame, Hb, Hc, Hts in Hrs. unfold ofZ in Hrs at 2.
  rewrite timeDiff_finite in Hrs.
  assert (Hd0 : (0 < (inject_Z now2 + - inject_Z now1) / inject_Z 1000)%Q).
  { apply Qlt_shift_div_l; [reflexivity|].
    assert (H : (inject_Z now1 < inject_Z now2)%Q) by (rewrite <- Zlt_Qlt; exact Hnow).
    lra. }
  rewrite speedMbps_finite in Hrs by lra.
  rewrite Hrs. cbn [num_eq ofZ]. unfold Qdiv. ring.
Qed.

Lemma silence_gives_zero_witness :
  (receivedSpeed (rate afterSilence) == ofZ 0)%js.
Proof.
  apply (silence_gives_zero
           (unlines [receivedLine "1000000000"; sentLine "5000"]) gaugeBlob
           2000 4000 selected busySender afterSilence sampleDevice
           (inject_Z 1000000000));
    vm_compute; reflexivity.
Defined.

(** A cycle that ends with an error text leaves the counters and the time of
    the last completed cycle in place, so that the speed of the next cycle
    that completes is taken over the whole time since then. *)
Theorem outage_is_averaged
  (r : FetchResult) (metrics : string) (now1 now2 : Z)
  (g g2 : Globals) (dev : Device) :
  currentDevice g = Some dev ->
  let g1 := after (fetchMetrics r now1 g) in
  fetchError g1 <> NoError ->
  fetchMetrics (Resolved (TextData metrics)) now2 g1 = Normal g2 ->
  fetchError g2 = NoError ->
  (lastReceivedBytes (rate g) > ofZ 0)%js = true ->
  (lastSentBytes (rate g) > ofZ 0)%js = true ->
  (lastReceivedBytes (rate g1) = lastReceivedBytes (rate g) /\
   lastSentBytes (rate g1) = lastSentBytes (rate g) /\
   lastTimestamp (rate g1) = lastTimestamp (rate g)) /\
  receivedSpeed (rate g2)
  = speedMbps (currentReceivedBytes (net g2)) (lastReceivedBytes (rate g))
      ((ofZ now2 - lastTimestamp (rate g)) / ofZ 1000)%js /\
  sentSpeed (rate g2)
  = speedMbps (currentSentBytes (net g2)) (lastSentBytes (rate g))
      ((ofZ now2 - lastTimestamp (rate g)) / ofZ 1000)%js.
Proof.
  intros Hd g1 He1 Hf2 He2 Hk Hks.
  assert (Hkeep : lastReceivedBytes (rate g1) = lastReceivedBytes (rate g) /\
                  lastSentBytes (rate g1) = lastSentBytes (rate g) /\
                  lastTimestamp (rate g1) = lastTimestamp (rate g)).
  { subst g1. rewrite (fetchMetrics_cases r now1 g dev Hd) in *.
    destruct r as [[m|]|e]; try (repeat split; reflexivity).
    pose proof (forEach_rate (linesOf m) (startOf g)) as Hr.
    pose proof (forEach_fetchError (linesOf m) (startOf g)) as Hfe.
    destruct (forEach _ _) as [p|p e]; cbn [passOf] in *.
    - exfalso. apply He1. change (fetchError (vars p) = NoError).
      rewrite Hfe. reflexivity.
    - change (lastReceivedBytes (rate (vars p)) = lastReceivedBytes (rate g) /\
              lastSentBytes (rate (vars p)) = lastSentBytes (rate g) /\
              lastTimestamp (rate (vars p)) = lastTimestamp (rate g)).
      rewrite Hr. repeat split; reflexivity. }
  split; [exact Hkeep|]. destruct Hkeep as (A & B & C).
  assert (Hd1 : currentDevice g1 = Some dev).
  { destruct (fetchMetrics_untouched r now1 g) as [H _]. fold g1 in H. congruence. }
  pose proof (success_rate metrics now2 g1 g2 dev Hd1 Hf2 He2) as Hr.
  rewrite <- A in Hk. rewrite <- B in Hks.
  destruct (updateRate_known now2 (net g2) (rate g1) Hk Hks) as [H1 H2].
  rewrite <- Hr, A, C in H1. rewrite <- Hr, B, C in H2. split; assumption.
Qed.

Lemma outage_is_averaged_witness :
  let g1 := after (fetchMetrics (Rejected timeout) 4000 busySender) in
  let g2 := after (fetchMetrics
                     (Resolved (TextData (unlines [receivedLine "1031250000";
                                                   sentLine "6000"]))) 4500 g1) in
  lastTimestamp (rate g1) = ofZ 2000 /\
  receivedSpeed (rate g2)
  = speedMbps (ofZ 1031250000) (ofZ 1000000000) ((ofZ 4500 - ofZ 2000) / ofZ 1000)%js.
Proof.
  intros g1 g2.
  pose proof (outage_is_averaged (Rejected timeout)
                (unlines [receivedLine "1031250000"; sentLine "6000"])
                4000 4500 busySender g2 sampleDevice
                ltac:(vm_compute; reflexivity) ltac:(vm_compute; discriminate)
                ltac:(vm_compute; reflexivity) ltac:(vm_compute; reflexivity)
                ltac:(vm_compute; reflexivity) ltac:(vm_compute; reflexivity))
    as ((_ & _ & H1) & H2 & _).
  split; [exact H1 | exact H2].
Defined.

(** [selectDevice] keeps the counters of the device selected before: the
    first cycle that completes on the new device takes its speeds against
    the last counters and the last time of the old one (when both were
    above 0); there is no fresh start. *)
Theorem selection_keeps_counters
  (device : Device) (metrics : string) (now : Z) (g g2 : Globals) :
  fetchMetrics (Resolved (TextData metrics)) now (selectDevice device g) = Normal g2 ->
  fetchError g2 = NoError ->
  (lastReceivedBytes (rate g) > ofZ 0)%js = true ->
  (lastSentBytes (rate g) > ofZ 0)%js = true ->
  currentDevice g2 = Some device /\
  receivedSpeed (rate g2)
  = speedMbps (currentReceivedBytes (net g2)) (lastReceivedBytes (rate g))
      ((ofZ now - lastTimestamp (rate g)) / ofZ 1000)%js /\
  sentSpeed (rate g2)
  = speedMbps (currentSentBytes (net g2)) (lastSentBytes (rate g))
      ((ofZ now - lastTimestamp (rate g)) / ofZ 1000)%js.
Proof.
  intros Hf He Hk Hks.
  assert (Hd : currentDevice (selectDevice device g) = Some device) by reflexivity.
  split.
  - destruct (fetchMetrics_untouched (Resolved (TextData metrics)) now
                (selectDevice device g)) as [H _].
    rewrite Hf in H. cbn [after] in H. congruence.
  - pose proof (success_rate metrics now _ g2 device Hd Hf He) as Hr.
    change (rate (selectDevice device g)) with (rate g) in Hr.
    destruct (updateRate_known now (net g2) (rate g) Hk Hks) as [H1 H2].
    rewrite <- Hr in H1, H2. split; assumption.
Qed.

Lemma selection_keeps_counters_witness :
  let g2 := after (fetchMetrics
                     (Resolved (TextData (unlines [receivedLine "4000"; sentLine "3000"])))
                     4000 (selectDevice otherDevice busySender)) in
  currentDevice g2 = Some otherDevice /\
  receivedSpeed (rate g2)
  = speedMbps (ofZ 4000) (ofZ 1000000000) ((ofZ 4000 - ofZ 2000) / ofZ 1000)%js.
Proof.
  intros g2.
  pose proof (selection_keeps_counters otherDevice
                (unlines [receivedLine "4000"; sentLine "3000"]) 4000 busySender g2
                ltac:(vm_compute; reflexivity) ltac:(vm_compute; reflexivity)
                ltac:(vm_compute; reflexivity) ltac:(vm_compute; reflexivity))
    as (H0 & H1 & _).
  split; [exact H0 | exact H1].
Defined.

(** ** One entry for each core *)

Lemma Map_has_In (k : string) (m : CoreTimes) :
  Map_has k m = true <-> In k (map fst m).
Proof.
  induction m as [|[k' v] m IH]; cbn [Map_has map fst In].
  - split; [discriminate|tauto].
  - rewrite orb_true_iff, IH, String.eqb_eq. tauto.
Qed.

Lemma Map_set_keys (k : string) (v : CoreTimeData) (m : CoreTimes) :
  map fst (Map_set k v m) =
  if Map_has k m then map fst m else (map fst m ++ [k])%list.
Proof.
  induction m as [|[k' v'] m IH]; cbn [Map_set Map_has map fst app]; [reflexivity|].
  destruct (String.eqb k' k); cbn [orb map fst]; [reflexivity|].
  rewrite IH. destruct (Map_has k m); reflexivity.
Qed.

Lemma onCpuTime_keys (line : string) (m : CoreTimes) :
  map fst (onCpuTime line m) =
  match (if includes "windows_cpu_time_total" line then match_core_mode line
         else None) with
  | Some (c, _) => if Map_has c m then map fst m else (map fst m ++ [c])%list
  | None => map fst m
  end.
Proof.
  unfold onCpuTime. destruct (includes _ line); [|reflexivity].
  destruct (match_core_mode line) as [[c mode]|]; [|reflexivity].
  destruct (Map_has c m) eqn:Hh.
  - destruct (Map_get c m); [|reflexivity].
    destruct (negb _); [|reflexivity]. rewrite Map_set_keys, Hh. reflexivity.
  - assert (Hk : map fst (Map_set c newCoreTimeData m) = (map fst m ++ [c])%list)
      by (rewrite Map_set_keys, Hh; reflexivity).
    assert (Hh' : Map_has c (Map_set c newCoreTimeData m) = true).
    { apply Map_has_In. rewrite Hk. apply in_or_app. right. left. reflexivity. }
    destruct (Map_get c _); [|exact Hk].
    destruct (negb _); [|exact Hk]. rewrite Map_set_keys, Hh'. exact Hk.
Qed.

Lemma onCpuTime_In (line : string) (m : CoreTimes) (c : string) :
  In c (map fst (onCpuTime line m)) <-> In c (map fst m) \/ namesCore c line.
Proof.
  rewrite onCpuTime_keys. unfold namesCore.
  destruct (includes _ line).
  - destruct (match_core_mode line) as [[c' mode]|].
    + destruct (Map_has c' m) eqn:Hh.
      * split; [tauto|]. intros [H|[_ [mode' Hm]]]; [exact H|].
        injection Hm as -> _. apply Map_has_In. exact Hh.
      * rewrite in_app_iff. cbn [In]. split.
        -- intros [H|[<-|[]]]; [left; exact H|]. right. split; [reflexivity|].
           exists mode. reflexivity.
        -- intros [H|[_ [mode' Hm]]]; [left; exact H|].
           injection Hm as -> _. right. left. reflexivity.
    + split; [tauto|]. intros [H|[_ [mode' Hm]]]; [exact H|discriminate].
  - split; [tauto|]. intros [H|[Hi _]]; [exact H|discriminate].
Qed.

Lemma onCpuTime_NoDup (line : string) (m : CoreTimes) :
  NoDup (map fst m) -> NoDup (map fst (onCpuTime line m)).
Proof.
  intros Hn. rewrite onCpuTime_keys.
  destruct (includes _ line); [|exact Hn].
  destruct (match_core_mode line) as [[c mode]|]; [|exact Hn].
  destruct (Map_has c m) eqn:Hh; [exact Hn|].
  apply NoDup_app; [exact Hn | repeat constructor; intros [] |].
  intros x Hx [<-|[]]. apply Map_has_In in Hx. congruence.
Qed.

Lemma processLine_coreTimes (line : string) (p p' : Pass) :
  processLine line p = Normal p' -> coreTimes p' = onCpuTime line (coreTimes p).
Proof.
  unfold processLine. destruct (onLogicalProcessor _ _); [|discriminate].
  intros E. injection E as <-. reflexivity.
Qed.

Lemma forEach_keys (lines : list string) (p p' : Pass) :
  forEach lines p = Normal p' ->
  (NoDup (map fst (coreTimes p)) -> NoDup (map fst (coreTimes p'))) /\
  (forall c, In c (map fst (coreTimes p')) <->
             In c (map fst (coreTimes p)) \/
             exists line, In line lines /\ namesCore c line).
Proof.
  revert p. induction lines as [|line rest IH]; intros p E; cbn [forEach] in E.
  - injection E as <-. split; [tauto|]. intros c. split; [tauto|].
    intros [H|(line & [] & _)]. exact H.
  - destruct (processLine line p) as [q|q e] eqn:El; [|discriminate].
    pose proof (processLine_coreTimes line p q El) as Hq.
    destruct (IH q E) as [Hn Hi]. split.
    + intros H. apply Hn. rewrite Hq. apply onCpuTime_NoDup. exact H.
    + intros c. rewrite Hi, Hq, onCpuTime_In. cbn [In]. split.
      * intros [[H|H]|(l & Hl & Hc)]; [left; exact H | | ].
        -- right. exists line. split; [left; reflexivity|exact H].
        -- right. exists l. split; [right; exact Hl|exact Hc].
      * intros [H|(l & [<-|Hl] & Hc)].
        -- left. left. exact H.
        -- left. right. exact Hc.
        -- right. exists l. split; assumption.
Qed.

Lemma insert_Permutation (x : CoreUsage) (l : list CoreUsage) :
  Permutation (insert x l) (x :: l).
Proof.
  induction l as [|y l IH]; cbn [insert]; [reflexivity|].
  destruct (index x - index y > ofZ 0)%js; [|reflexivity].
  rewrite IH. apply perm_swap.
Qed.

(** The sort only reorders the entries. *)
Lemma sort_Permutation (l : list CoreUsage) : Permutation (sort l) l.
Proof.
  induction l as [|x l IH]; cbn [sort]; [reflexivity|].
  rewrite insert_Permutation, IH. reflexivity.
Qed.

(** After a cycle that completes, [cpuCoreUsages] holds one entry for each
    core label named by a CPU time line of the response (whatever its mode,
    [total] included), no label twice and no other label. *)
Theorem one_entry_per_core
  (metrics : string) (now : Z) (g g' : Globals) (dev : Device) :
  currentDevice g = Some dev ->
  fetchMetrics (Resolved (TextData metrics)) now g = Normal g' ->
  fetchError g' = NoError ->
  NoDup (map core (cpuCoreUsages g')) /\
  (forall c, In c (map core (cpuCoreUsages g')) <->
             exists line, In line (linesOf metrics) /\ namesCore c line).
Proof.
  intros Hd Hf He.
  destruct (fetchMetrics_success metrics now g g' dev Hd Hf He) as (p & Hp & ->).
  change (cpuCoreUsages (with_isLoading false (afterLines now p)))
    with (sort (map (toCoreUsage (cpuFreq (cpu (vars p)))) (coreTimes p))).
  set (f := toCoreUsage (cpuFreq (cpu (vars p)))).
  assert (Hperm : Permutation (map core (sort (map f (coreTimes p))))
                              (map fst (coreTimes p))).
  { rewrite (Permutation_map core (sort_Permutation (map f (coreTimes p)))).
    rewrite map_map. reflexivity. }
  destruct (forEach_keys _ _ p Hp) as [Hn Hi]. cbn [coreTimes map] in Hn, Hi.
  split.
  - apply (Permutation_NoDup (Permutation_sym Hperm)). apply Hn. constructor.
  - intros c. split.
    + intros H. apply (Permutation_in _ Hperm) in H. apply Hi in H as [[]|H]. exact H.
    + intros H. apply (Permutation_in _ (Permutation_sym Hperm)). apply Hi.
      right. exact H.
Qed.

Lemma one_entry_per_core_witness :
  NoDup (map core (cpuCoreUsages afterCores)) /\
  (forall c, In c (map core (cpuCoreUsages afterCores)) <->
             exists line, In line (linesOf coresBlob) /\ namesCore c line).
Proof.
  apply (one_entry_per_core coresBlob 2000 selected afterCores sampleDevice);
    vm_compute; reflexivity.
Defined.

(** ** Usage within bounds, from the lines to the aggregate *)

Lemma nonNegative_Fin (x : number) :
  nonNegative x = true -> exists q, x = Fin q /\ (0 <= q)%Q.
Proof.
  destruct x as [| |q]; try discriminate. cbn [nonNegative]. intros H.
  exists q. split; [reflexivity|]. apply Qle_bool_iff. exact H.
Qed.

Lemma usageOf_range (d : CoreTimeData) :
  timesOk d = true ->
  exists u, usageOf d = Fin u /\ (0 <= u)%Q /\ (u <= 100)%Q.
Proof.
  unfold timesOk. rewrite !andb_true_iff. intros ((((Hi & Hu) & Hp) & Hn) & Hc).
  apply nonNegative_Fin in Hi as (i & Ei & Pi). apply nonNegative_Fin in Hu as (u & Eu & Pu).
  apply nonNegative_Fin in Hp as (p & Ep & Pp). apply nonNegative_Fin in Hn as (n & En & Pn).
  apply nonNegative_Fin in Hc as (c & Ec & Pc).
  unfold usageOf. rewrite Ei, Eu, Ep, En, Ec. cbn [nadd].
  set (a := (u + p + n + c)%Q). set (t := (a + i)%Q).
  assert (Ha : (0 <= a)%Q) by (subst a; lra).
  destruct (Fin t > ofZ 0)%js eqn:E.
  - apply ngt_finite in E. change (inject_Z 0) with 0%Q in E.
    rewrite ndiv_finite by lra. cbn [nmul ofZ].
    assert (H0 : (0 <= a / t)%Q) by (apply Qle_shift_div_l; [exact E | lra]).
    assert (H1 : (a / t <= 1)%Q) by (apply Qle_shift_div_r; [exact E | subst t; lra]).
    eexists. split; [reflexivity|]. change (inject_Z 100) with 100%Q. split; lra.
  - exists (inject_Z 0). split; [reflexivity|]. change (inject_Z 0) with 0%Q. split; lra.
Qed.

Lemma setField_timesOk (mode : string) (value : number) (d : CoreTimeData) :
  nonNegative value = true -> timesOk d = true ->
  timesOk (setField mode value d) = true.
Proof.
  unfold timesOk, setField. rewrite !andb_true_iff. cbn [idle user privileged interrupt dpc].
  intros Hv ((((Hi & Hu) & Hp) & Hn) & Hc).
  destruct (String.eqb mode "idle"), (String.eqb mode "user"),
    (String.eqb mode "privileged"), (String.eqb mode "interrupt"),
    (String.eqb mode "dpc"); repeat split; assumption.
Qed.

Lemma Map_get_In (k : string) (m : CoreTimes) (d : CoreTimeData) :
  Map_get k m = Some d -> In d (map snd m).
Proof.
  induction m as [|[k' v] m IH]; cbn [Map_get map snd In]; [discriminate|].
  destruct (String.eqb k' k); [intros E; injection E as ->; left; reflexivity|].
  intros E. right. exact (IH E).
Qed.

Lemma Map_set_values (P : CoreTimeData -> Prop) (k : string) (v : CoreTimeData)
  (m : CoreTimes) :
  P v -> Forall P (map snd m) -> Forall P (map snd (Map_set k v m)).
Proof.
  intros Hv. induction m as [|[k' v'] m IH]; cbn [Map_set map snd]; intros H.
  - repeat constructor. exact Hv.
  - inversion H as [|? ? H1 H2]; subst.
    destruct (String.eqb k' k); cbn [map snd]; constructor; auto.
Qed.

Lemma moderate_nonNegative (x : number) :
  moderate x = true -> nonNegative x = true.
Proof.
  destruct x as [| |q]; try discriminate. cbn [moderate nonNegative].
  intros H. apply andb_true_iff in H as [H _]. exact H.
Qed.

Lemma onCpuTime_timesOk (line : string) (m : CoreTimes) :
  (includes "windows_cpu_time_total" line = true ->
   match_core_mode line <> None -> moderate (lineValue line) = true) ->
  Forall (fun d => timesOk d = true) (map snd m) ->
  Forall (fun d => timesOk d = true) (map snd (onCpuTime line m)).
Proof.
  intros Hv Hm. unfold onCpuTime.
  destruct (includes _ line); [|exact Hm]. specialize (Hv eq_refl).
  destruct (match_core_mode line) as [[c mode]|]; [|exact Hm].
  assert (Hv' : nonNegative (lineValue line) = true)
    by (apply moderate_nonNegative, Hv; discriminate).
  clear Hv. rename Hv' into Hv.
  set (m1 := if Map_has c m then m else Map_set c newCoreTimeData m).
  assert (H1 : Forall (fun d => timesOk d = true) (map snd m1)).
  { subst m1. destruct (Map_has c m); [exact Hm|].
    apply Map_set_values; [reflexivity|exact Hm]. }
  destruct (Map_get c m1) as [d|] eqn:Hg; [|exact H1].
  destruct (negb _); [|exact H1].
  apply Map_set_values; [|exact H1].
  assert (Hd : timesOk d = true)
    by (exact (proj1 (Forall_forall _ _) H1 d (Map_get_In c m1 d Hg))).
  assert (Hs : timesOk (if String.eqb mode "idle" then saveIdle (lineValue line) d
                        else d) = true).
  { destruct (String.eqb mode "idle"); [|exact Hd].
    unfold timesOk in *. cbn [saveIdle idle user privileged interrupt dpc].
    rewrite !andb_true_iff in *. destruct Hd as ((((_ & Hu) & Hp) & Hn) & Hc).
    repeat split; assumption. }
  pose proof (setField_timesOk mode (lineValue line) _ Hv Hs) as Hf.
  exact Hf.
Qed.

Lemma forEach_timesOk (lines : list string) (p p' : Pass) :
  (forall line, In line lines -> includes "windows_cpu_time_total" line = true ->
                match_core_mode line <> None ->
                moderate (lineValue line) = true) ->
  forEach lines p = Normal p' ->
  Forall (fun d => timesOk d = true) (map snd (coreTimes p)) ->
  Forall (fun d => timesOk d = true) (map snd (coreTimes p')).
Proof.
  revert p. induction lines as [|line rest IH]; intros p Hv E Hm; cbn [forEach] in E.
  - injection E as <-. exact Hm.
  - destruct (processLine line p) as [q|q e] eqn:El; [|discriminate].
    apply (IH q); [intros l Hl; apply Hv; right; exact Hl | exact E |].
    rewrite (processLine_coreTimes line p q El).
    apply onCpuTime_timesOk; [apply Hv; left; reflexivity | exact Hm].
Qed.

Lemma sum_usage_bounds (l : list CoreUsage) :
  Forall (fun c => exists u, usage c = Fin u /\ (0 <= u)%Q /\ (u <= 100)%Q) l ->
  forall acc : Q,
  exists s, fold_left (fun sum c => (sum + usage c)%js) l (Fin acc) = Fin s /\
            (acc <= s)%Q /\ (s <= acc + 100 * inject_Z (Z.of_nat (List.length l)))%Q.
Proof.
  induction 1 as [|c l (u & Eu & H0 & H1) _ IH]; intros acc.
  - exists acc. split; [reflexivity|]. cbn [List.length Z.of_nat].
    change (inject_Z 0) with 0%Q. split; lra.
  - cbn [fold_left]. rewrite Eu. cbn [nadd].
    destruct (IH (acc + u)%Q) as (s & Es & A & B).
    exists s. split; [exact Es|].
    replace (Z.of_nat (List.length (c :: l))) with (Z.of_nat (List.length l) + 1)
      by (cbn [List.length]; lia).
    rewrite inject_Z_plus. change (inject_Z 1) with 1%Q. split; lra.
Qed.

(** When every line of the response that the CPU time branch reads (it
    includes the metric name and matches the pattern of core and mode)
    carries a finite value between 0 and 2^1020, and at least one core is
    named, every entry of [cpuCoreUsages] has a usage between 0 and 100
    after the cycle, and so has the aggregate [cpuUsage].  The comment lines
    of the metric match no pattern and are free; the bound keeps the sum of
    the five times of a core within the range of binary64. *)
Theorem usage_within_bounds
  (metrics : string) (now : Z) (g g' : Globals) (dev : Device) :
  currentDevice g = Some dev ->
  fetchMetrics (Resolved (TextData metrics)) now g = Normal g' ->
  fetchError g' = NoError ->
  (forall line, In line (linesOf metrics) ->
                includes "windows_cpu_time_total" line = true ->
                match_core_mode line <> None ->
                moderate (lineValue line) = true) ->
  cpuCoreUsages g' <> [] ->
  Forall (fun c => exists u, usage c = Fin u /\ (0 <= u)%Q /\ (u <= 100)%Q)
    (cpuCoreUsages g') /\
  exists v, cpuUsage (cpu g') = Fin v /\ (0 <= v)%Q /\ (v <= 100)%Q.
Proof.
  intros Hd Hf He Hv Hne.
  destruct (fetchMetrics_success metrics now g g' dev Hd Hf He) as (p & Hp & ->).
  change (cpuUsage (cpu (with_isLoading false (afterLines now p))))
    with (averageUsage (cpuCoreUsages (with_isLoading false (afterLines now p)))).
  change (cpuCoreUsages (with_isLoading false (afterLines now p)))
    with (sort (map (toCoreUsage (cpuFreq (cpu (vars p)))) (coreTimes p))) in *.
  set (l := sort (map (toCoreUsage (cpuFreq (cpu (vars p)))) (coreTimes p))) in *.
  pose proof (forEach_timesOk _ _ p Hv Hp (Forall_nil _)) as Hok.
  assert (Hall : Forall (fun c => exists u, usage c = Fin u /\ (0 <= u)%Q /\ (u <= 100)%Q) l).
  { apply Forall_forall. intros c Hin. subst l.
    apply (proj1 (In_sort _ _)) in Hin. apply in_map_iff in Hin as ([k d] & <- & Hin).
    cbn [usage toCoreUsage snd]. apply usageOf_range.
    apply (proj1 (Forall_forall _ _) Hok). apply in_map_iff.
    exists (k, d). split; [reflexivity|exact Hin]. }
  split; [exact Hall|].
  destruct (sum_usage_bounds l Hall (inject_Z 0)) as (s & Es & A & B).
  unfold averageUsage, ofZ. rewrite Es.
  assert (Hlen : (0 < inject_Z (Z.of_nat (List.length l)))%Q).
  { change 0%Q with (inject_Z 0). rewrite <- Zlt_Qlt.
    destruct l; [congruence|]. cbn [List.length]. lia. }
  rewrite ndiv_finite by lra.
  eexists. split; [reflexivity|]. change (inject_Z 0) with 0%Q in *. split.
  - apply Qle_shift_div_l; [exact Hlen|lra].
  - apply Qle_shift_div_r; [exact Hlen|lra].
Qed.

Lemma usage_within_bounds_witness :
  Forall (fun c => exists u, usage c = Fin u /\ (0 <= u)%Q /\ (u <= 100)%Q)
    (cpuCoreUsages afterExporter) /\
  exists v, cpuUsage (cpu afterExporter) = Fin v /\ (0 <= v)%Q /\ (v <= 100)%Q.
Proof.
  apply (usage_within_bounds exporterBlob 2000 selected afterExporter sampleDevice).
  - reflexivity.
  - vm_compute; reflexivity.
  - vm_compute; reflexivity.
  - intros line Hin. vm_compute in Hin.
    repeat (destruct Hin as [<-|Hin];
            [intros _ Hm;
             first [vm_compute; reflexivity
                   | exfalso; apply Hm; vm_compute; reflexivity]|]).
    destruct Hin.
  - vm_compute. discriminate.
Defined.

(** ** The used values are never negative *)

Lemma Math_max_zero (x : number) : (ofZ 0 > Math_max (ofZ 0) x)%js = false.
Proof.
  destruct x as [|[]|q]; try reflexivity.
  unfold Math_max, ofZ. cbn [ngt].
  destruct (Qle_bool q (inject_Z 0)) eqn:E; cbn [negb ngt].
  - reflexivity.
  - apply negb_false_iff. apply Qle_bool_iff.
    destruct (Qlt_le_dec (inject_Z 0) q) as [H|H]; [apply Qlt_le_weak; exact H|].
    apply Qle_bool_iff in H. congruence.
Qed.

Lemma processLine_used (line : string) (p : Pass) :
  let g' := vars (passOf (processLine line p)) in
  (ofZ 0 > memoryUsed (memory (vars p)))%js = false ->
  (ofZ 0 > diskUsed (disk (vars p)))%js = false ->
  (ofZ 0 > memoryUsed (memory g'))%js = false /\
  (ofZ 0 > diskUsed (disk g'))%js = false.
Proof.
  intros g' Hm Hd. subst g'. unfold processLine.
  destruct (onLogicalProcessor _ _) as [c|c e]; cbn [passOf vars].
  - cbn [memory disk with_disk with_memory with_cpu with_net].
    unfold onMemoryAvailable, onMemoryTotal, onDiskFree, onDiskSize.
    split.
    + destruct (includes "windows_os_visible_memory_bytes" line);
        destruct (includes "windows_memory_available_bytes" line);
        cbn [memoryUsed memoryTotal]; first [exact Hm | apply Math_max_zero].
    + destruct (includes diskSizeC line); destruct (includes diskFreeC line);
        cbn [diskUsed diskTotal]; first [exact Hd | apply Math_max_zero].
  - split; assumption.
Qed.

Lemma forEach_used (lines : list string) (p : Pass) :
  let g' := vars (passOf (forEach lines p)) in
  (ofZ 0 > memoryUsed (memory (vars p)))%js = false ->
  (ofZ 0 > diskUsed (disk (vars p)))%js = false ->
  (ofZ 0 > memoryUsed (memory g'))%js = false /\
  (ofZ 0 > diskUsed (disk g'))%js = false.
Proof.
  revert p. induction lines as [|line rest IH]; intros p g' Hm Hd; subst g';
    cbn [forEach].
  - split; assumption.
  - destruct (processLine_used line p Hm Hd) as [Hm' Hd'].
    destruct (processLine line p) as [q|q e]; cbn [passOf] in *.
    + exact (IH q Hm' Hd').
    + split; assumption.
Qed.

(** No cycle, however it ends, makes [memoryUsed] or [diskUsed] negative:
    the subtraction of the free value from the total is cut off at 0. *)
Theorem used_never_negative (r : FetchResult) (now : Z) (g : Globals) :
  (ofZ 0 > memoryUsed (memory g))%js = false ->
  (ofZ 0 > diskUsed (disk g))%js = false ->
  let g' := after (fetchMetrics r now g) in
  (ofZ 0 > memoryUsed (memory g'))%js = false /\
  (ofZ 0 > diskUsed (disk g'))%js = false.
Proof.
  intros Hm Hd g'. subst g'.
  destruct (currentDevice g) as [dev|] eqn:Hdev.
  - rewrite (fetchMetrics_cases r now g dev Hdev).
    destruct r as [[metrics|]|e].
    + pose proof (forEach_used (linesOf metrics) (startOf g) Hm Hd) as H.
      cbv zeta in H. destruct (forEach _ _) as [p|p e]; cbn [passOf] in H.
      * exact H.
      * split; reflexivity.
    + split; assumption.
    + split; reflexivity.
  - unfold fetchMetrics. rewrite Hdev. split; assumption.
Qed.

Lemma used_never_negative_witness :
  let g' := after (fetchMetrics (Resolved (TextData sortedGaugeBlob)) 4000 afterGauges) in
  (ofZ 0 > memoryUsed (memory g'))%js = false /\
  (ofZ 0 > diskUsed (disk g'))%js = false.
Proof.
  apply (used_never_negative (Resolved (TextData sortedGaugeBlob)) 4000 afterGauges);
    vm_compute; reflexivity.
Defined.

(** ** The value of a line *)

Lemma split_at_separator (c : ascii) (s t : string) :
  split c (s ++ String c t) = (split c s ++ split c t)%list.
Proof.
  induction s as [|a s IH]; cbn [append split].
  - rewrite Ascii.eqb_refl. reflexivity.
  - rewrite IH. destruct (Ascii.eqb a c); [reflexivity|].
    pose proof (split_not_nil c s) as Hne.
    destruct (split c s) as [|w ws]; [congruence|reflexivity].
Qed.

Lemma split_without (c : ascii) (t : string) :
  allChars (fun a => negb (Ascii.eqb a c)) t = true -> split c t = [t].
Proof.
  induction t as [|a t IH]; cbn [allChars split]; [reflexivity|].
  intros H. apply andb_true_iff in H as [Ha Ht]. apply negb_true_iff in Ha.
  rewrite Ha, (IH Ht). reflexivity.
Qed.

(** The value of a line is read from what follows its last space, whatever
    stands before (labels with spaces included): a field without space is
    read by [parseFloat], and a decimal numeral gives the number it
    writes. *)
Theorem value_is_last_field (s d : string) :
  allChars (fun a => negb (Ascii.eqb a " ")) d = true ->
  d <> "" ->
  lineValue (s ++ " " ++ d) = parseFloat d /\
  (numeral d = true -> lineValue (s ++ " " ++ d) = ofZ (digits_val 10 0 d)).
Proof.
  intros Hd Hne.
  assert (H : lineValue (s ++ " " ++ d) = parseFloat d).
  { unfold lineValue. change (" " ++ d) with (String " " d).
    rewrite split_at_separator, (split_without " " d Hd), pop_last.
    destruct d; [congruence|reflexivity]. }
  split; [exact H|]. intros Hn. rewrite H. unfold parseFloat.
  assert (Ha : allChars is_digit d = true) by (destruct d; [discriminate|exact Hn]).
  rewrite (trim_start_digits d Ha), (scan_decimal_digits d Hn). reflexivity.
Qed.

Lemma value_is_last_field_witness :
  lineValue ("windows_net_bytes_received_total{nic=" ++ dq ++ "Intel(R) Wi-Fi 6" ++ dq
             ++ "}" ++ " " ++ "7000") = ofZ 7000.
Proof.
  apply (proj2 (value_is_last_field
                  ("windows_net_bytes_received_total{nic=" ++ dq ++ "Intel(R) Wi-Fi 6"
                   ++ dq ++ "}") "7000" ltac:(vm_compute; reflexivity)
                  ltac:(discriminate))).
  vm_compute; reflexivity.
Defined.

(** ** The device list and the selection *)

Lemma fetchMetricsWithRetry_untouched (r : FetchResult) (now : Z) (g : Globals) :
  let g' := fst (fetchMetricsWithRetry r now g) in
  currentDevice g' = currentDevice g /\ pollingInterval g' = pollingInterval g /\
  snd (fetchMetricsWithRetry r now g) = [].
Proof.
  unfold fetchMetricsWithRetry.
  split; [|split; [|apply tryFetchMetrics_no_retry]].
  - unfold tryFetchMetrics.
    destruct (currentDevice (with_retryCount 0 g)) eqn:Hd; [|reflexivity].
    rewrite fetchMetrics_returns. cbn [fst].
    destruct (fetchMetrics_untouched r now (with_retryCount 0 g)) as (A & _).
    exact A.
  - unfold tryFetchMetrics.
    destruct (currentDevice (with_retryCount 0 g)) eqn:Hd; [|reflexivity].
    rewrite fetchMetrics_returns. cbn [fst].
    destruct (fetchMetrics_untouched r now (with_retryCount 0 g)) as (_ & _ & C & _).
    exact C.
Qed.

Lemma startPolling_currentDevice (r : FetchResult) (l : Loop) :
  currentDevice (state (startPolling r l)) = currentDevice (state l).
Proof.
  unfold startPolling. destruct (pollingInterval (state l)); [reflexivity|].
  destruct (fetchMetricsWithRetry_untouched r (clock l) (state l)) as (A & _).
  destruct (fetchMetricsWithRetry r (clock l) (state l)) as [g ts]. exact A.
Qed.

Lemma stopPolling_currentDevice (l : Loop) :
  currentDevice (state (stopPolling l)) = currentDevice (state l).
Proof. unfold stopPolling. destruct (pollingInterval (state l)); reflexivity. Qed.

Lemma hd_error_In (A : Type) (l : list A) (x : A) : hd_error l = Some x -> In x l.
Proof. destruct l; [discriminate|]. intros E. injection E as ->. left. reflexivity. Qed.

(** [addDevice], [removeDevice] and [selectDevice] on a device of the list
    keep the selection sound: the selected device is one of the list, and a
    device is selected as soon as the list is not empty. *)
Theorem selection_stays_sound
  (now : Z) (id_ : string) (r : FetchResult) (i : Inputs) (l : Loop) (device : Device) :
  selectionOk (devices i) (state l) ->
  selectionOk (devices (fst (fst (addDevice now i (state l)))))
              (snd (fst (addDevice now i (state l)))) /\
  selectionOk (devices (fst (removeDevice now id_ r i l)))
              (state (snd (removeDevice now id_ r i l))) /\
  (In device (devices i) -> selectionOk (devices i) (selectDevice device (state l))).
Proof.
  unfold selectionOk. intros H. split; [|split].
  - unfold addDevice.
    destruct (newDeviceIP i) as [|a s]; [exact H|].
    destruct (newDeviceName i) as [|b t]; [exact H|].
    destruct (currentDevice (state l)) as [c|] eqn:Hc; cbn [fst snd devices].
    + rewrite Hc. apply in_or_app. left. exact H.
    + change (currentDevice (with_currentDevice (Some _) (state l)))
        with (Some {| id := dateText now; ip := String a s; url := "/api/metrics";
                      name := String b t |}).
      apply in_or_app. right. left. reflexivity.
  - unfold removeDevice.
    destruct (currentDevice (state l)) as [c|] eqn:Hc.
    + destruct (String.eqb (id c) id_) eqn:Hid.
      * destruct (hd_error _) as [d|] eqn:Hh; cbn [fst snd devices].
        -- rewrite startPolling_currentDevice, stopPolling_currentDevice.
           cbn [onState state atTime].
           change (currentDevice (with_currentDevice (Some d) (state l)))
             with (Some d).
           exact (hd_error_In _ _ d Hh).
        -- cbn [onState state].
           match goal with
           | |- context [currentDevice (resetAllData ?t ?x)] =>
               change (currentDevice (resetAllData t x)) with (currentDevice x)
           end.
           rewrite stopPolling_currentDevice. cbn [onState state atTime].
           change (currentDevice (with_currentDevice None (state l)))
             with (@None Device).
           destruct (filter _ (devices i)); [reflexivity|discriminate].
      * cbn [fst snd devices]. rewrite Hc. apply filter_In. split; [exact H|].
        rewrite Hid. reflexivity.
    + cbn [fst snd devices]. rewrite Hc, H. reflexivity.
  - intros Hin. exact Hin.
Qed.

Lemma selection_stays_sound_witness :
  selectionOk
    (devices (fst (fst (addDevice 1700000000000 formFilled
                          (state (pageWith sampleDevice 0))))))
    (snd (fst (addDevice 1700000000000 formFilled (state (pageWith sampleDevice 0))))) /\
  selectionOk
    (devices (fst (removeDevice 1700000000000 "1" (Rejected timeout) formFilled
                     (pageWith sampleDevice 0))))
    (state (snd (removeDevice 1700000000000 "1" (Rejected timeout) formFilled
                   (pageWith sampleDevice 0)))).
Proof.
  pose proof (selection_stays_sound 1700000000000 "1" (Rejected timeout) formFilled
                (pageWith sampleDevice 0) sampleDevice
                ltac:(left; reflexivity)) as (H1 & H2 & _).
  split; [exact H1 | exact H2].
Defined.

Lemma filter_all_out (id_ : string) (ds : list Device) :
  forallb (fun d => String.eqb (id d) id_) ds = true ->
  filter (fun d => negb (String.eqb (id d) id_)) ds = [].
Proof.
  induction ds as [|d ds IH]; [reflexivity|]. cbn [forallb filter].
  intros H. apply andb_true_iff in H as [Hd Hs]. rewrite Hd. exact (IH Hs).
Qed.

(** Removing the selected device when no device with another id is left,
    on a page that polls with no request pending, ends polling for good: the
    list is empty, no device is selected, the interval is cleared and no
    callback runs any more; every network variable, the speeds, the
    previous counters and the memory and disk variables are 0, while the
    CPU variables and [cpuCoreUsages] stay as the last cycle left them. *)
Theorem removing_last_device
  (dev : Device) (t0 now : Z) (r0 r : FetchResult) (rs later : list FetchResult)
  (i : Inputs) :
  forallb (fun d => String.eqb (id d) (id dev)) (devices i) = true ->
  let l := polled dev t0 r0 rs in
  let i' := fst (removeDevice now (id dev) r i l) in
  let l' := snd (removeDevice now (id dev) r i l) in
  devices i' = [] /\ currentDevice (state l') = None /\
  interval l' = None /\ timeouts l' = [] /\ pollingInterval (state l') = false /\
  turns later l' = l' /\ log l' = log l /\
  net (state l') = {| receivedData := ofZ 0; sentData := ofZ 0; totalData := ofZ 0;
                      bandwidth := ofZ 0; receivedPackets := ofZ 0;
                      sentPackets := ofZ 0; currentReceivedBytes := ofZ 0;
                      currentSentBytes := ofZ 0 |} /\
  rate (state l') = {| receivedSpeed := ofZ 0; sentSpeed := ofZ 0;
                       lastReceivedBytes := ofZ 0; lastSentBytes := ofZ 0;
                       lastTimestamp := ofZ now |} /\
  memory (state l') = {| memoryTotal := ofZ 0; memoryUsed := ofZ 0;
                         memoryFree := ofZ 0 |} /\
  disk (state l') = {| diskTotal := ofZ 0; diskUsed := ofZ 0; diskFree := ofZ 0 |} /\
  cpu (state l') = cpu (state l) /\
  cpuCoreUsages (state l') = cpuCoreUsages (state l).
Proof.
  intros Hall l i' l'. subst i' l'.
  destruct (polled_invariant dev t0 r0 rs) as (Ht & _ & _ & Hd & _ & Hp & _).
  fold l in Ht, Hd, Hp.
  unfold removeDevice. rewrite Hd, String.eqb_refl, (filter_all_out _ _ Hall).
  cbn [hd_error fst snd devices]. unfold stopPolling.
  cbn [onState atTime state].
  change (pollingInterval (with_currentDevice None (state l)))
    with (pollingInterval (state l)).
  rewrite Hp. cbn [onState state interval log timeouts clock].
  split; [reflexivity|]. split; [reflexivity|]. split; [reflexivity|].
  split; [exact Ht|]. split; [reflexivity|].
  split; [apply turns_idle; [exact Ht | reflexivity]|].
  repeat split; reflexivity.
Qed.

Lemma removing_last_device_witness :
  let l := polled sampleDevice 0 (Resolved (TextData coresBlob))
             [Resolved (TextData twoAdapters)] in
  let l' := snd (removeDevice 2500 (id sampleDevice) (Rejected timeout) formFilled l) in
  currentReceivedBytes (net (state l)) = ofZ 1000 /\
  currentReceivedBytes (net (state l')) = ofZ 0 /\
  turns [Resolved (TextData gaugeBlob)] l' = l' /\
  cpuCoreUsages (state l') = cpuCoreUsages (state l).
Proof.
  intros l l'.
  pose proof (removing_last_device sampleDevice 0 2500 (Resolved (TextData coresBlob))
                (Rejected timeout) [Resolved (TextData twoAdapters)]
                [Resolved (TextData gaugeBlob)]
                formFilled ltac:(vm_compute; reflexivity))
    as (_ & _ & _ & _ & _ & H1 & _ & Hn & _ & _ & _ & _ & H2).
  split; [vm_compute; reflexivity|].
  split; [fold l l' in Hn; rewrite Hn; reflexivity|].
  split; [exact H1 | exact H2].
Defined.

(** Removing the selected device while a device with another id is left, on
    a page that polls with no request pending, selects the first device left
    and starts polling afresh: the old interval is cleared, exactly one
    request is made, at the time of the removal, and once it has settled an
    interval is set again; no timeout is pending. *)
Theorem removing_selected_device
  (dev next : Device) (t0 now : Z) (r0 r : FetchResult) (rs : list FetchResult)
  (i : Inputs) :
  hd_error (filter (fun d => negb (String.eqb (id d) (id dev))) (devices i))
  = Some next ->
  let l := polled dev t0 r0 rs in
  let stopped := stopPolling (onState (with_currentDevice (Some next)) (atTime now l)) in
  let l' := snd (removeDevice now (id dev) r i l) in
  devices (fst (removeDevice now (id dev) r i l))
  = filter (fun d => negb (String.eqb (id d) (id dev))) (devices i) /\
  interval stopped = None /\
  l' = startPolling r stopped /\
  currentDevice (state l') = Some next /\
  log l' = (log l ++ [(now, cbFetchMetricsWithRetry)])%list /\
  (exists tick, interval l' = Some tick) /\
  timeouts l' = [] /\ pollingInterval (state l') = true.
Proof.
  intros Hn l stopped l'. subst l'.
  destruct (polled_invariant dev t0 r0 rs) as (Ht & _ & _ & Hd & _ & Hp & _).
  fold l in Ht, Hd, Hp.
  unfold removeDevice. rewrite Hd, String.eqb_refl, Hn. cbn [fst snd devices].
  split; [reflexivity|].
  set (l1 := onState (with_currentDevice (Some next)) (atTime now l)) in *.
  assert (Hs : stopped =
               {| clock := now; state := with_pollingInterval false (state l1);
                  timeouts := []; interval := None; log := log l |}).
  { subst stopped. unfold stopPolling.
    change (pollingInterval (state l1)) with (pollingInterval (state l)).
    rewrite Hp. subst l1. cbn [onState atTime clock timeouts log]. rewrite Ht.
    reflexivity. }
  split; [rewrite Hs; reflexivity|]. split; [reflexivity|].
  fold stopped. rewrite Hs. unfold startPolling. cbn [state clock timeouts log].
  change (pollingInterval (with_pollingInterval false (state l1))) with false.
  cbv iota.
  destruct (fetchMetricsWithRetry_untouched r now
              (with_pollingInterval false (state l1))) as (A & _ & C).
  destruct (fetchMetricsWithRetry r now (with_pollingInterval false (state l1)))
    as [g ts].
  cbn [fst snd] in A, C. subst ts.
  cbn [state log interval timeouts due map app].
  change (currentDevice (with_pollingInterval true g)) with (currentDevice g).
  rewrite A.
  split; [reflexivity|]. split; [reflexivity|].
  split; [eexists; reflexivity|]. split; reflexivity.
Qed.

Lemma removing_selected_device_witness :
  let l := polled sampleDevice 0 (Rejected timeout) [Rejected timeout] in
  let l' := snd (removeDevice 2500 (id sampleDevice) (Rejected timeout)
                   {| devices := [sampleDevice; otherDevice];
                      newDeviceIP := ""; newDeviceName := "" |} l) in
  currentDevice (state l') = Some otherDevice /\
  log l' = (log l ++ [(2500, cbFetchMetricsWithRetry)])%list.
Proof.
  intros l l'.
  pose proof (removing_selected_device sampleDevice otherDevice 0 2500
                (Rejected timeout) (Rejected timeout) [Rejected timeout]
                {| devices := [sampleDevice; otherDevice];
                   newDeviceIP := ""; newDeviceName := "" |}
                ltac:(vm_compute; reflexivity)) as (_ & _ & _ & H1 & H2 & _).
  split; [exact H1 | exact H2].
Defined.

(** ** The ids of the devices *)

Lemma dateText_inj (a b : Z) : dateText a = dateText b -> a = b.
Proof.
  unfold dateText. intros H. apply DecimalZ.to_int_inj.
  assert (Hn : forall z, Z.to_int z <> Decimal.Pos Decimal.Nil /\
                         Z.to_int z <> Decimal.Neg Decimal.Nil).
  { intros [|p|p]; cbn; split; try discriminate;
      intros E; injection E as E; revert E; apply DecimalPos.Unsigned.to_uint_nonnil. }
  destruct (Hn a) as [A1 A2], (Hn b) as [B1 B2].
  pose proof (NilZero.isi _ A1 A2) as Ia. pose proof (NilZero.isi _ B1 B2) as Ib.
  rewrite H in Ia. congruence.
Qed.

(** The device that [addDevice] appends carries the time of the call as its
    id: two devices have the same id exactly when they were added at the
    same time, and then [removeDevice] of that id takes both off the list;
    added at different times, removing the one keeps the other. *)
Theorem device_ids_by_time
  (now1 now2 : Z) (i1 i2 : Inputs) (g1 g2 : Globals) (d1 d2 : Device) :
  newDeviceIP i1 <> "" -> newDeviceName i1 <> "" ->
  newDeviceIP i2 <> "" -> newDeviceName i2 <> "" ->
  last (devices (fst (fst (addDevice now1 i1 g1)))) sampleDevice = d1 ->
  last (devices (fst (fst (addDevice now2 i2 g2)))) sampleDevice = d2 ->
  (id d1 = id d2 <-> now1 = now2) /\
  filter (fun d => negb (String.eqb (id d) (id d1))) [d1; d2]
  = if Z.eqb now1 now2 then [] else [d2].
Proof.
  intros H1 H2 H3 H4 E1 E2.
  assert (Hid : forall now i g,
             newDeviceIP i <> "" -> newDeviceName i <> "" ->
             id (last (devices (fst (fst (addDevice now i g)))) sampleDevice)
             = dateText now).
  { intros now i g Hi Hn. unfold addDevice.
    destruct (newDeviceIP i); [congruence|]. destruct (newDeviceName i); [congruence|].
    destruct (currentDevice g); cbn [fst devices]; rewrite last_last; reflexivity. }
  pose proof (Hid now1 i1 g1 H1 H2) as A. pose proof (Hid now2 i2 g2 H3 H4) as B.
  rewrite E1 in A. rewrite E2 in B.
  assert (Hiff : id d1 = id d2 <-> now1 = now2).
  { rewrite A, B. split; [apply dateText_inj | intros ->; reflexivity]. }
  split; [exact Hiff|].
  cbn [filter]. rewrite String.eqb_refl. cbn [negb].
  destruct (Z.eqb_spec now1 now2) as [Heq|Hne].
  - apply Hiff in Heq. rewrite <- Heq, String.eqb_refl. reflexivity.
  - destruct (String.eqb_spec (id d2) (id d1)) as [Hs|Hs]; [|reflexivity].
    exfalso. apply Hne. apply Hiff. congruence.
Qed.

Lemma device_ids_by_time_witness :
  let d1 := last (devices (fst (fst (addDevice 1700000000000 formFilled selected))))
              sampleDevice in
  let d2 := last (devices (fst (fst (addDevice 1700000000001 formFilled selected))))
              sampleDevice in
  id d1 = "1700000000000" /\
  filter (fun d => negb (String.eqb (id d) (id d1))) [d1; d2] = [d2].
Proof.
  intros d1 d2. split; [vm_compute; reflexivity|].
  exact (proj2 (device_ids_by_time 1700000000000 1700000000001 formFilled formFilled
                  selected selected d1 d2
                  ltac:(discriminate) ltac:(discriminate)
                  ltac:(discriminate) ltac:(discriminate) eq_refl eq_refl)).
Defined.

(** ** A time that is no number *)

Lemma nadd_NaN_r (x : number) : (x + NaN)%js = NaN.
Proof. destruct x; reflexivity. Qed.

(** A core with a time that is NaN in any of the five modes gets the usage 0,
    not NaN: the sum is NaN and the test [totalTime > 0] fails. *)
Theorem nan_time_gives_zero_usage (d : CoreTimeData) :
  isNaN (idle d) || isNaN (user d) || isNaN (privileged d)
  || isNaN (interrupt d) || isNaN (dpc d) = true ->
  usageOf d = ofZ 0.
Proof.
  intros H. unfold usageOf.
  assert (Ht : (user d + privileged d + interrupt d + dpc d + idle d)%js = NaN).
  { destruct (idle d) as [| |i]; [apply nadd_NaN_r| |];
      (destruct (dpc d) as [| |c]; [rewrite nadd_NaN_r; reflexivity| |]);
      (destruct (interrupt d) as [| |n];
         [rewrite nadd_NaN_r; reflexivity| |]);
      (destruct (privileged d) as [| |p];
         [rewrite nadd_NaN_r; reflexivity| |]);
      (destruct (user d) as [| |u]; [reflexivity| |]);
      discriminate H. }
  rewrite Ht. reflexivity.
Qed.

Lemma nan_time_gives_zero_usage_witness :
  usageOf {| idle := ofZ 30; user := NaN; privileged := ofZ 10; interrupt := ofZ 10;
             dpc := ofZ 10; total := NaN; lastTotal := ofZ 60; lastIdle := ofZ 0 |}
  = ofZ 0.
Proof.
  apply nan_time_gives_zero_usage. vm_compute. reflexivity.
Defined.
